(** * nolib_glsl: the WebGL triangle script [main.js]

    A shallow embedding of [main.js].  The script is a straight sequence of
    calls on two collaborators it does not define: the page ([document],
    the canvas element, [console]) and the WebGL rendering context.  Both
    are kept abstract in an environment [Env]; the script itself is embedded
    as a computation in a small monad that threads the trace of observable
    events (every WebGL call issued, every [console.error] line) and that
    can end in an uncaught JavaScript exception. *)

From Stdlib Require Import List String ZArith QArith Bool Lia.
Import ListNotations.
Open Scope string_scope.
Open Scope Z_scope.
Open Scope list_scope.

(** ** JavaScript values *)

(** The values the script handles.  Objects (the canvas element, the
    rendering context, shader, program and buffer handles) are opaque and
    identified by an allocation number.  The numbers that reach a [value]
    here are WebGL integers (attribute locations, status words). *)
Inductive value : Type :=
| VUndefined
| VNull
| VBool (b : bool)
| VNum (n : Z)
| VStr (s : string)
| VObj (id : nat).

(** [ToBoolean]: the test behind [if (!x)]. *)
Definition truthy (v : value) : bool :=
  match v with
  | VUndefined | VNull => false
  | VBool b => b
  | VNum n => negb (n =? 0)
  | VStr s => negb (s =? "")%string
  | VObj _ => true
  end.

(** The named constants the script reads off the context ([gl.FLOAT], ...). *)
Inductive GLenum : Type :=
| VERTEX_SHADER | FRAGMENT_SHADER
| COMPILE_STATUS | LINK_STATUS
| ARRAY_BUFFER | STATIC_DRAW
| FLOAT
| COLOR_BUFFER_BIT
| TRIANGLES.

(** ** The WebGL calls *)

(** One constructor per method of the rendering context, with the arguments
    as the caller passes them.  [DeleteProgram] is part of the interface
    although the script never uses it. *)
Inductive glcall : Type :=
| CreateShader (type : GLenum)
| ShaderSource (shader : value) (source : string)
| CompileShader (shader : value)
| GetShaderParameter (shader : value) (pname : GLenum)
| GetShaderInfoLog (shader : value)
| DeleteShader (shader : value)
| CreateProgram
| AttachShader (program shader : value)
| LinkProgram (program : value)
| GetProgramParameter (program : value) (pname : GLenum)
| GetProgramInfoLog (program : value)
| DeleteProgram (program : value)
| CreateBuffer
| BindBuffer (target : GLenum) (buffer : value)
| BufferData (target : GLenum) (data : list Q) (usage : GLenum)
| GetAttribLocation (program : value) (name : string)
| VertexAttribPointer (index : value) (size : Z) (type : GLenum)
                      (normalized : bool) (stride offset : Z)
| EnableVertexAttribArray (index : value)
| Viewport (x y width height : Z)
| ClearColor (r g b a : Q)
| Clear (mask : GLenum)
| UseProgram (program : value)
| DrawArrays (mode : GLenum) (first count : Z).

(** What an observer of one run sees, oldest event first. *)
Inductive event : Type :=
| ConsoleError (v : value)
| GL (c : glcall).

Definition trace := list event.

(** ** Outcomes and the environment *)

(** The one exception the script can meet: a property read or a method
    call on a value that is not an object, or an argument the WebGL binding
    refuses. *)
Inductive exn : Type :=
| TypeError.

Inductive outcome (A : Type) : Type :=
| Returned (a : A)
| Thrown (e : exn).
Arguments Returned {A} a.
Arguments Thrown {A} e.

(** The page and the WebGL implementation.  [respond h c] is what the
    implementation answers to call [c] after the events [h]; it may throw
    (a binding that rejects an argument raises [TypeError]). *)
Record Env : Type := {
  getElementById : string -> value;
  getContext : value -> string -> value;
  canvas_width : Z;
  canvas_height : Z;
  respond : trace -> glcall -> outcome value
}.

(** ** The script monad *)

Definition M (A : Type) : Type := Env -> trace -> outcome A * trace.

Definition ret {A} (a : A) : M A := fun _ h => (Returned a, h).

Definition bind {A B} (m : M A) (k : A -> M B) : M B :=
  fun env h =>
    match m env h with
    | (Returned a, h') => k a env h'
    | (Thrown e, h') => (Thrown e, h')
    end.

Definition throw {A} (e : exn) : M A := fun _ h => (Thrown e, h).

Declare Scope js_scope.
Delimit Scope js_scope with js.
Notation "x <- m ;; k" := (bind m (fun x => k))
  (at level 61, m at next level, right associativity) : js_scope.
Notation "m ;; k" := (bind m (fun _ => k))
  (at level 61, right associativity) : js_scope.
Open Scope js_scope.

(** [if (c) { m }] with no [else]. *)
Definition when (c : bool) (m : M unit) : M unit :=
  if c then m else ret tt.

(** [console.error(v)] *)
Definition console_error (v : value) : M unit :=
  fun _ h => (Returned tt, h ++ [ConsoleError v]).

(** Reading a property or a method off [o]: a [TypeError] unless [o] is an
    object. *)
Definition is_object (v : value) : bool :=
  match v with VObj _ => true | _ => false end.

Definition deref (o : value) : M unit :=
  if is_object o then ret tt
  else throw TypeError.

(** [gl.NAME]: reading a constant off the context. *)
Definition gl_const (gl : value) (e : GLenum) : M GLenum :=
  deref gl ;; ret e.

(** [gl.method(args)]: the call is recorded, and the implementation's
    answer is the result. *)
Definition gl_call (gl : value) (c : glcall) : M value :=
  deref gl ;;
  fun env h => (respond env h c, h ++ [GL c]).

(** [document.getElementById(id)] *)
Definition document_getElementById (id : string) : M value :=
  fun env h => (Returned (getElementById env id), h).

(** [canvas.getContext(kind)] *)
Definition canvas_getContext (canvas : value) (kind : string) : M value :=
  deref canvas ;;
  fun env h => (Returned (getContext env canvas kind), h).

(** [gl.canvas.width] and [gl.canvas.height] *)
Definition gl_canvas_width (gl : value) : M Z :=
  deref gl ;; fun env h => (Returned (canvas_width env), h).

Definition gl_canvas_height (gl : value) : M Z :=
  deref gl ;; fun env h => (Returned (canvas_height env), h).

(** ** [createShader] and [createProgram] *)

Definition createShader (gl : value) (type : GLenum) (source : string)
  : M value :=
  shader <- gl_call gl (CreateShader type) ;;
  gl_call gl (ShaderSource shader source) ;;
  gl_call gl (CompileShader shader) ;;
  status <- gl_call gl (GetShaderParameter shader COMPILE_STATUS) ;;
  if negb (truthy status) then
    log <- gl_call gl (GetShaderInfoLog shader) ;;
    console_error log ;;
    gl_call gl (DeleteShader shader) ;;
    ret VNull
  else
    ret shader.

Definition createProgram (gl : value)
  (vertexShaderSource fragmentShaderSource : string) : M value :=
  vs_type <- gl_const gl VERTEX_SHADER ;;
  vertexShader <- createShader gl vs_type vertexShaderSource ;;
  fs_type <- gl_const gl FRAGMENT_SHADER ;;
  fragmentShader <- createShader gl fs_type fragmentShaderSource ;;
  program <- gl_call gl CreateProgram ;;
  gl_call gl (AttachShader program vertexShader) ;;
  gl_call gl (AttachShader program fragmentShader) ;;
  gl_call gl (LinkProgram program) ;;
  status <- gl_call gl (GetProgramParameter program LINK_STATUS) ;;
  if negb (truthy status) then
    log <- gl_call gl (GetProgramInfoLog program) ;;
    console_error log ;;
    ret VNull
  else
    ret program.

(** ** The shader sources *)

Definition vertShader : string := "
attribute vec2 a_points;

attribute vec4 a_colors;
varying vec4 v_colors;

void main() {
  gl_Position = vec4(a_points, 0, 1);

  /* pass the colors attribute to the fragment */
  v_colors = a_colors;
}
".

Definition fragShader : string := "
#ifdef GL_ES
precision mediump float;
#endif

varying vec4 v_colors;

void main() {
  gl_FragColor = v_colors;
}
".

(** ** The vertex data *)

Definition points_arr : list Q := [-1; -1; 0; 1 # 2; 1; -1]%Q.

Definition colors_arr : list Q :=
  [ 1; 0; 0; 1;
    0; 1; 0; 1;
    0; 0; 1; 1 ]%Q.

(** [new Float32Array(a)]: every number of the two arrays is a float32
    already, so the copy holds the same numbers. *)
Definition Float32Array (a : list Q) : list Q := a.

(** ** The top-level script *)

Definition main : M unit :=
  canvas <- document_getElementById "leCanvas" ;;
  when (negb (truthy canvas))
    (console_error (VStr "Canvas not found :(")) ;;
  gl <- canvas_getContext canvas "webgl" ;;
  when (negb (truthy gl))
    (console_error (VStr "WebGL not supported :(")) ;;
  program <- createProgram gl vertShader fragShader ;;
  when (negb (truthy program))
    (console_error (VStr "Failed to create program :(")) ;;
  pointsBuffer <- gl_call gl CreateBuffer ;;
  gl_call gl (BindBuffer ARRAY_BUFFER pointsBuffer) ;;
  gl_call gl (BufferData ARRAY_BUFFER (Float32Array points_arr) STATIC_DRAW) ;;
  pointsLocation <- gl_call gl (GetAttribLocation program "a_points") ;;
  gl_call gl (BindBuffer ARRAY_BUFFER pointsBuffer) ;;
  gl_call gl (VertexAttribPointer pointsLocation 2 FLOAT false 0 0) ;;
  gl_call gl (EnableVertexAttribArray pointsLocation) ;;
  colorsBuffer <- gl_call gl CreateBuffer ;;
  gl_call gl (BindBuffer ARRAY_BUFFER colorsBuffer) ;;
  gl_call gl (BufferData ARRAY_BUFFER (Float32Array colors_arr) STATIC_DRAW) ;;
  colorLocation <- gl_call gl (GetAttribLocation program "a_colors") ;;
  gl_call gl (BindBuffer ARRAY_BUFFER colorsBuffer) ;;
  gl_call gl (VertexAttribPointer colorLocation 4 FLOAT false 0 0) ;;
  gl_call gl (EnableVertexAttribArray colorLocation) ;;
  width <- gl_canvas_width gl ;;
  height <- gl_canvas_height gl ;;
  gl_call gl (Viewport 0 0 width height) ;;
  gl_call gl (ClearColor 0 0 0 1) ;;
  gl_call gl (Clear COLOR_BUFFER_BIT) ;;
  gl_call gl (UseProgram program) ;;
  gl_call gl (DrawArrays TRIANGLES 0 3) ;;
  ret tt.

(** ** Running the script against an implementation that answers *)

(** The answer of the implementation when it returns one. *)
Definition ans (env : Env) (h : trace) (c : glcall) : value :=
  match respond env h c with
  | Returned v => v
  | Thrown _ => VUndefined
  end.

(** An implementation that reports misuse through its error flag and never
    by throwing: every call returns. *)
Definition quiet (env : Env) : Prop :=
  forall h c, exists v, respond env h c = Returned v.

(** The stations of one [createShader gl type source] started after [h]. *)
Section ShaderStations.
Variables (env : Env) (h : trace) (type : GLenum) (source : string).

Definition new_shader : value := ans env h (CreateShader type).

Definition compiled : trace :=
  h ++ [GL (CreateShader type);
        GL (ShaderSource new_shader source);
        GL (CompileShader new_shader)].

Definition compile_status : value :=
  ans env compiled (GetShaderParameter new_shader COMPILE_STATUS).

Definition compile_checked : trace :=
  compiled ++ [GL (GetShaderParameter new_shader COMPILE_STATUS)].

Definition shader_info_log : value :=
  ans env compile_checked (GetShaderInfoLog new_shader).

Definition compile_rejected : trace :=
  compile_checked ++ [GL (GetShaderInfoLog new_shader);
                      ConsoleError shader_info_log;
                      GL (DeleteShader new_shader)].
End ShaderStations.

(** The stations of the second half of [createProgram], started after [h]
    with the two shader values [vs] and [fs] in hand. *)
Section ProgramStations.
Variables (env : Env) (h : trace) (vs fs : value).

Definition new_program : value := ans env h CreateProgram.

Definition linked : trace :=
  h ++ [GL CreateProgram;
        GL (AttachShader new_program vs);
        GL (AttachShader new_program fs);
        GL (LinkProgram new_program)].

Definition link_status : value :=
  ans env linked (GetProgramParameter new_program LINK_STATUS).

Definition link_checked : trace :=
  linked ++ [GL (GetProgramParameter new_program LINK_STATUS)].

Definition program_info_log : value :=
  ans env link_checked (GetProgramInfoLog new_program).

Definition link_rejected : trace :=
  link_checked ++ [GL (GetProgramInfoLog new_program);
                   ConsoleError program_info_log].
End ProgramStations.

(** The stations of one vertex attribute set up after [h]: a buffer is
    made, bound and filled with [data], the attribute [name] is looked up in
    [program], and the layout of [size] components is described. *)
Section AttributeStations.
Variables (env : Env) (h : trace) (program : value).
Variables (name : string) (size : Z) (data : list Q).

Definition new_buffer : value := ans env h CreateBuffer.

Definition uploaded : trace :=
  h ++ [GL CreateBuffer;
        GL (BindBuffer ARRAY_BUFFER new_buffer);
        GL (BufferData ARRAY_BUFFER data STATIC_DRAW)].

Definition attrib_location : value :=
  ans env uploaded (GetAttribLocation program name).

Definition attribute_setup : list event :=
  [GL CreateBuffer;
   GL (BindBuffer ARRAY_BUFFER new_buffer);
   GL (BufferData ARRAY_BUFFER data STATIC_DRAW);
   GL (GetAttribLocation program name);
   GL (BindBuffer ARRAY_BUFFER new_buffer);
   GL (VertexAttribPointer attrib_location size FLOAT false 0 0);
   GL (EnableVertexAttribArray attrib_location)].

Definition attribute_ready : trace := h ++ attribute_setup.
End AttributeStations.

(** ** Classifying events *)

(** The events of shader compilation and program linking. *)
Definition is_build (e : event) : bool :=
  match e with
  | ConsoleError _
  | GL (CreateShader _) | GL (ShaderSource _ _) | GL (CompileShader _)
  | GL (GetShaderParameter _ _) | GL (GetShaderInfoLog _)
  | GL (DeleteShader _)
  | GL CreateProgram | GL (AttachShader _ _) | GL (LinkProgram _)
  | GL (GetProgramParameter _ _) | GL (GetProgramInfoLog _) => true
  | _ => false
  end.

Definition is_delete_shader (e : event) : bool :=
  match e with GL (DeleteShader _) => true | _ => false end.

Definition is_delete_program (e : event) : bool :=
  match e with GL (DeleteProgram _) => true | _ => false end.

Definition is_draw (e : event) : bool :=
  match e with GL (DrawArrays _ _ _) => true | _ => false end.

Definition is_console (e : event) : bool :=
  match e with ConsoleError _ => true | _ => false end.

Definition is_gl (e : event) : bool :=
  match e with GL _ => true | _ => false end.

(** The calls that describe and enable a vertex attribute. *)
Definition is_layout (e : event) : bool :=
  match e with
  | GL (VertexAttribPointer _ _ _ _ _ _) => true
  | GL (EnableVertexAttribArray _) => true
  | _ => false
  end.

(** The calls of the draw submission. *)
Definition is_submission (e : event) : bool :=
  match e with
  | GL (Viewport _ _ _ _) | GL (ClearColor _ _ _ _) | GL (Clear _)
  | GL (UseProgram _) | GL (DrawArrays _ _ _) => true
  | _ => false
  end.

(** The data of an upload is one of the two constant arrays. *)
Definition uploads_constant (e : event) : Prop :=
  match e with
  | GL (BufferData target data usage) =>
      target = ARRAY_BUFFER /\ usage = STATIC_DRAW /\
      (data = points_arr \/ data = colors_arr)
  | _ => True
  end.

(** ** Vertex data as the attribute layout reads it *)

(** With stride 0 and offset 0, vertex [i] of an attribute of [size]
    components is the [i]-th block of [size] consecutive numbers. *)
Definition vertex_attr (size : nat) (data : list Q) (i : nat) : list Q :=
  firstn size (skipn (size * i) data).

Definition vertex_count (size : nat) (data : list Q) : nat :=
  Nat.div (List.length data) size.

(** ** A reference implementation, for concrete runs *)

Definition value_eqb (a b : value) : bool :=
  match a, b with
  | VUndefined, VUndefined | VNull, VNull => true
  | VBool x, VBool y => Bool.eqb x y
  | VNum x, VNum y => (x =? y)%Z
  | VStr x, VStr y => (x =? y)%string
  | VObj x, VObj y => (x =? y)%nat
  | _, _ => false
  end.

Section Reference.
(** The verdict of the GLSL compiler on a stage and its source. *)
Variable accepts : GLenum -> string -> bool.

(** Handles are numbered by the position of the call that made them;
    the canvas element is object 0 and the context object 1. *)
Definition fresh (h : trace) : value := VObj (2 + List.length h).

Definition made_by (h : trace) (o : value) : option glcall :=
  match o with
  | VObj (S (S n)) =>
      match nth_error h n with Some (GL c) => Some c | _ => None end
  | _ => None
  end.

Definition source_of (h : trace) (sh : value) : option string :=
  fold_left (fun acc e =>
               match e with
               | GL (ShaderSource s src) =>
                   if value_eqb s sh then Some src else acc
               | _ => acc
               end) h None.

Definition compile_requested (h : trace) (sh : value) : bool :=
  existsb (fun e => match e with
                    | GL (CompileShader s) => value_eqb s sh
                    | _ => false
                    end) h.

Definition compile_ok (h : trace) (sh : value) : bool :=
  match made_by h sh, source_of h sh with
  | Some (CreateShader t), Some src =>
      compile_requested h sh && accepts t src
  | _, _ => false
  end.

Definition has_stage (h : trace) (p : value) (t : GLenum) : bool :=
  existsb (fun e => match e with
                    | GL (AttachShader q sh) =>
                        value_eqb q p && compile_ok h sh &&
                        match made_by h sh, t with
                        | Some (CreateShader VERTEX_SHADER), VERTEX_SHADER
                        | Some (CreateShader FRAGMENT_SHADER), FRAGMENT_SHADER
                            => true
                        | _, _ => false
                        end
                    | _ => false
                    end) h.

Definition link_requested (h : trace) (p : value) : bool :=
  existsb (fun e => match e with
                    | GL (LinkProgram q) => value_eqb q p
                    | _ => false
                    end) h.

Definition link_ok (h : trace) (p : value) : bool :=
  link_requested h p && has_stage h p VERTEX_SHADER
                     && has_stage h p FRAGMENT_SHADER.

Definition ref_answer (h : trace) (c : glcall) : value :=
  match c with
  | CreateShader _ | CreateProgram | CreateBuffer => fresh h
  | GetShaderParameter sh _ => VBool (compile_ok h sh)
  | GetShaderInfoLog sh =>
      VStr (if compile_ok h sh then "" else "ERROR: 0:1: syntax error")
  | GetProgramParameter p _ => VBool (link_ok h p)
  | GetProgramInfoLog p =>
      VStr (if link_ok h p then "" else "ERROR: missing or invalid shader")
  | GetAttribLocation p name =>
      VNum (if negb (link_ok h p) then -1
            else if (name =? "a_points")%string then 0
            else if (name =? "a_colors")%string then 1
            else -1)
  | _ => VUndefined
  end.

(** A page with the canvas, a 300 by 150 surface and this implementation. *)
Definition page : Env := {|
  getElementById := fun id =>
    if (id =? "leCanvas")%string then VObj 0 else VNull;
  getContext := fun _ kind =>
    if (kind =? "webgl")%string then VObj 1 else VNull;
  canvas_width := 300;
  canvas_height := 150;
  respond := fun h c => Returned (ref_answer h c)
|}.
End Reference.

(** A compiler that accepts everything, and one that rejects every fragment
    stage. *)
Definition accept_all (_ : GLenum) (_ : string) : bool := true.

Definition reject_fragment (t : GLenum) (_ : string) : bool :=
  match t with FRAGMENT_SHADER => false | _ => true end.

(** A page without the canvas element, and one whose canvas gives no WebGL
    context. *)
Definition page_without_canvas : Env := {|
  getElementById := fun _ => VNull;
  getContext := fun _ _ => VNull;
  canvas_width := 0;
  canvas_height := 0;
  respond := fun h c => Returned (ref_answer accept_all h c)
|}.

Definition page_without_webgl : Env := {|
  getElementById := fun id =>
    if (id =? "leCanvas")%string then VObj 0 else VNull;
  getContext := fun _ _ => VNull;
  canvas_width := 300;
  canvas_height := 150;
  respond := fun h c => Returned (ref_answer accept_all h c)
|}.

(** A page whose WebGL binding refuses [null] where it expects a shader or
    a program, as bindings generated from the current interface description
    do; its compiler rejects every fragment stage. *)
Definition page_strict : Env := {|
  getElementById := fun id =>
    if (id =? "leCanvas")%string then VObj 0 else VNull;
  getContext := fun _ kind =>
    if (kind =? "webgl")%string then VObj 1 else VNull;
  canvas_width := 300;
  canvas_height := 150;
  respond := fun h c =>
    match c with
    | AttachShader VNull _ | AttachShader _ VNull
    | GetAttribLocation VNull _ => Thrown TypeError
    | _ => Returned (ref_answer reject_fragment h c)
    end
|}.

(** ** Invariants of the trace *)

(** [m] keeps [P] true of every event: whatever it adds satisfies [P],
    whether it returns or throws. *)
Definition preserves {A} (P : event -> Prop) (m : M A) : Prop :=
  forall env h, Forall P h -> Forall P (snd (m env h)).

(** ** The handles of a run and two readings of its failure paths *)

Definition the_canvas (env : Env) : value := getElementById env "leCanvas".

Definition the_context (env : Env) : value :=
  getContext env (the_canvas env) "webgl".

(** The compile status check of the fragment stage fails in the run of the
    script. *)
Definition fragment_rejected (env : Env) : bool :=
  negb (truthy
          (compile_status env
             (snd (createShader (the_context env) VERTEX_SHADER vertShader
                     env []))
             FRAGMENT_SHADER fragShader)).

Definition logs_text (t : trace) : bool :=
  existsb (fun e => match e with
                    | ConsoleError (VStr s) => negb (s =? "")%string
                    | _ => false
                    end) t.

(** Reading: a rejected fragment stage makes [createProgram] return [null],
    leaves a non-empty text on the console, and keeps the script from
    drawing. *)
Definition no_draw_after_rejection (env : Env) : Prop :=
  fragment_rejected env = true ->
  fst (createProgram (the_context env) vertShader fragShader env [])
    = Returned VNull /\
  logs_text (snd (main env [])) = true /\
  existsb is_draw (snd (main env [])) = false.

(** Reading: without the canvas or without the context the script logs and
    is not stopped; it goes on to its last statement. *)
Definition carries_on_without_handle (env : Env) : Prop :=
  truthy (the_canvas env) = false \/ truthy (the_context env) = false ->
  existsb is_console (snd (main env [])) = true /\
  forall e, fst (main env []) <> Thrown e.

(** ** Further vocabulary for runs *)

(** The calls that make a shader and give it its source. *)
Definition is_stage_setup (e : event) : bool :=
  match e with
  | GL (CreateShader _) | GL (ShaderSource _ _) => true
  | _ => false
  end.

Definition is_compile_call (c : glcall) : bool :=
  match c with CompileShader _ => true | _ => false end.

(** A page whose implementation throws on the calls that [bad] picks out
    and otherwise answers like the reference one. *)
Definition page_throwing (bad : glcall -> bool) : Env := {|
  getElementById := fun id =>
    if (id =? "leCanvas")%string then VObj 0 else VNull;
  getContext := fun _ kind =>
    if (kind =? "webgl")%string then VObj 1 else VNull;
  canvas_width := 300;
  canvas_height := 150;
  respond := fun h c =>
    if bad c then Thrown TypeError
    else Returned (ref_answer accept_all h c)
|}.

(** [triple env P m Q E]: on the page [env], started on a trace that
    satisfies [P], the computation [m] either returns [a] on a trace that
    satisfies [Q a], or throws [e] on a trace that satisfies [E e]. *)
Definition triple {A} (env : Env) (P : trace -> Prop) (m : M A)
  (Q : A -> trace -> Prop) (E : exn -> trace -> Prop) : Prop :=
  forall h, P h ->
    match m env h with
    | (Returned a, h') => Q a h'
    | (Thrown e, h') => E e h'
    end.

(** No draw call so far. *)
Definition no_draw (e : event) : Prop := is_draw e = false.

(** No program deleted so far. *)
Definition no_delete_program (e : event) : Prop := is_delete_program e = false.

(** ** Calls that are answered, and two more readings *)

(** The implementation answers call [c] made after [h]. *)
Definition answered (env : Env) (h : trace) (c : glcall) : Prop :=
  exists v, respond env h c = Returned v.

(** The implementation rejects a stage: it answers the four calls of the
    compilation with a falsy compile status, and answers the info log query
    and the deletion that follow. *)
Definition rejected (env : Env) (h : trace) (type : GLenum)
  (source : string) : Prop :=
  let sh := new_shader env h type in
  answered env h (CreateShader type) /\
  answered env (h ++ [GL (CreateShader type)]) (ShaderSource sh source) /\
  answered env (h ++ [GL (CreateShader type); GL (ShaderSource sh source)])
    (CompileShader sh) /\
  answered env (compiled env h type source)
    (GetShaderParameter sh COMPILE_STATUS) /\
  truthy (compile_status env h type source) = false /\
  answered env (compile_checked env h type source) (GetShaderInfoLog sh) /\
  answered env
    (compile_checked env h type source ++
     [GL (GetShaderInfoLog sh);
      ConsoleError (shader_info_log env h type source)])
    (DeleteShader sh).

(** Reading: with a stage that came back [null], [createProgram] creates a
    program, attaches both shader values and links. *)
Definition attaches_and_links (env : Env) (g : nat) (vsrc fsrc : string)
  : Prop :=
  forall vs h1 fs h2,
    createShader (VObj g) VERTEX_SHADER vsrc env [] = (Returned vs, h1) ->
    createShader (VObj g) FRAGMENT_SHADER fsrc env h1 = (Returned fs, h2) ->
    vs = VNull \/ fs = VNull ->
    exists r rest,
      createProgram (VObj g) vsrc fsrc env [] =
      (r,
       h2 ++ [GL CreateProgram;
              GL (AttachShader (new_program env h2) vs);
              GL (AttachShader (new_program env h2) fs);
              GL (LinkProgram (new_program env h2))] ++ rest).

(** * Properties *)

(** ** Running one step *)

Lemma bind_returned {A B} (m : M A) (k : A -> M B) env h a h' :
  m env h = (Returned a, h') -> bind m k env h = k a env h'.
Proof. unfold bind; intros ->; reflexivity. Qed.

Lemma bind_thrown {A B} (m : M A) (k : A -> M B) env h e h' :
  m env h = (Thrown e, h') -> bind m k env h = (Thrown e, h').
Proof. unfold bind; intros ->; reflexivity. Qed.

Lemma deref_object g env h : deref (VObj g) env h = (Returned tt, h).
Proof. reflexivity. Qed.

Lemma deref_falsy v env h :
  truthy v = false -> deref v env h = (Thrown TypeError, h).
Proof. destruct v; simpl; intros Hv; try reflexivity; discriminate. Qed.

Lemma gl_const_object g e env h :
  gl_const (VObj g) e env h = (Returned e, h).
Proof. reflexivity. Qed.

Lemma gl_call_quiet env g c h :
  quiet env ->
  gl_call (VObj g) c env h = (Returned (ans env h c), h ++ [GL c]).
Proof.
  intros Hq. unfold gl_call, bind, ans; simpl.
  destruct (Hq h c) as [v ->]. reflexivity.
Qed.

Lemma console_error_run v env h :
  console_error v env h = (Returned tt, h ++ [ConsoleError v]).
Proof. reflexivity. Qed.

Lemma ret_run {A} (a : A) env h : ret a env h = (Returned a, h).
Proof. reflexivity. Qed.

(** One statement of the script, run against a quiet implementation. *)
Ltac js_step :=
  first
    [ erewrite bind_returned by (apply gl_call_quiet; assumption)
    | erewrite bind_returned by apply console_error_run
    | erewrite bind_returned by apply gl_const_object
    | erewrite bind_returned by apply deref_object
    | rewrite ret_run ].

Ltac js_run := repeat js_step; rewrite <- ?app_assoc; cbn [app].

(** ** [createShader] and [createProgram] against a quiet implementation *)

Lemma createShader_quiet env g h type source :
  quiet env ->
  createShader (VObj g) type source env h =
  if truthy (compile_status env h type source)
  then (Returned (new_shader env h type), compile_checked env h type source)
  else (Returned VNull, compile_rejected env h type source).
Proof.
  intros Hq. unfold createShader.
  do 4 js_step.
  unfold compile_rejected, shader_info_log, compile_checked, compile_status,
    compiled, new_shader.
  rewrite <- ?app_assoc; cbn [app].
  destruct (truthy _); cbn [negb]; js_run; reflexivity.
Qed.

Lemma is_build_not_delete_program e :
  is_build e = true -> is_delete_program e = false.
Proof. destruct e as [v | []]; simpl; congruence. Qed.

Lemma is_build_not_submission e :
  is_build e = true -> is_submission e = false.
Proof. destruct e as [v | []]; simpl; congruence. Qed.

Lemma is_build_not_layout e :
  is_build e = true -> is_layout e = false.
Proof. destruct e as [v | []]; simpl; congruence. Qed.

(** [createShader] returns, and what it adds to the trace are build events. *)
Lemma createShader_added env g h type source :
  quiet env ->
  exists r added,
    createShader (VObj g) type source env h = (Returned r, h ++ added) /\
    forallb is_build added = true.
Proof.
  intros Hq. rewrite createShader_quiet by assumption.
  unfold compile_rejected, compile_checked, compiled.
  destruct (truthy _); rewrite <- ?app_assoc; cbn [app];
    do 2 eexists; split; reflexivity.
Qed.

Lemma createProgram_quiet env g h vsrc fsrc vs h1 fs h2 :
  quiet env ->
  createShader (VObj g) VERTEX_SHADER vsrc env h = (Returned vs, h1) ->
  createShader (VObj g) FRAGMENT_SHADER fsrc env h1 = (Returned fs, h2) ->
  createProgram (VObj g) vsrc fsrc env h =
  if truthy (link_status env h2 vs fs)
  then (Returned (new_program env h2), link_checked env h2 vs fs)
  else (Returned VNull, link_rejected env h2 vs fs).
Proof.
  intros Hq Hv Hf. unfold createProgram.
  js_step. rewrite (bind_returned _ _ _ _ _ _ Hv).
  js_step. rewrite (bind_returned _ _ _ _ _ _ Hf).
  do 5 js_step.
  unfold link_rejected, program_info_log, link_checked, link_status,
    linked, new_program.
  rewrite <- ?app_assoc; cbn [app].
  destruct (truthy _); cbn [negb]; js_run; reflexivity.
Qed.

(** [createProgram] returns, and what it adds to the trace are build
    events. *)
Lemma createProgram_added env g h vsrc fsrc :
  quiet env ->
  exists r added,
    createProgram (VObj g) vsrc fsrc env h = (Returned r, h ++ added) /\
    forallb is_build added = true.
Proof.
  intros Hq.
  destruct (createShader_added env g h VERTEX_SHADER vsrc Hq)
    as (vs & a1 & Hv & Ha1).
  destruct (createShader_added env g (h ++ a1) FRAGMENT_SHADER fsrc Hq)
    as (fs & a2 & Hf & Ha2).
  rewrite (createProgram_quiet _ _ _ _ _ _ _ _ _ Hq Hv Hf).
  unfold link_rejected, link_checked, linked.
  destruct (truthy _); rewrite <- ?app_assoc; cbn [app];
    do 2 eexists; (split; [reflexivity |]);
    rewrite !forallb_app, Ha1, Ha2; reflexivity.
Qed.

(** ** The shader compiler *)

(** C3. Given a context object whose calls return, whenever the compile
    status check of [createShader] fails, the function asks the
    implementation for the shader's info log, passes exactly that text to
    [console.error], deletes the shader it had created, and returns [null]:
    the outcome is a returned value, not an exception. *)
Theorem createShader_compile_failure env g h type source :
  quiet env ->
  truthy (compile_status env h type source) = false ->
  createShader (VObj g) type source env h =
  (Returned VNull,
   compile_checked env h type source ++
   [GL (GetShaderInfoLog (new_shader env h type));
    ConsoleError (shader_info_log env h type source);
    GL (DeleteShader (new_shader env h type))]).
Proof.
  intros Hq Hfail. rewrite createShader_quiet by assumption.
  rewrite Hfail. reflexivity.
Qed.

Lemma createShader_compile_failure_witness :
  quiet (page reject_fragment) /\
  truthy (compile_status (page reject_fragment) [] FRAGMENT_SHADER
            "void main() { gl_FragColor = vec4(1.0) }") = false /\
  createShader (VObj 1) FRAGMENT_SHADER
    "void main() { gl_FragColor = vec4(1.0) }" (page reject_fragment) [] =
  (Returned VNull,
   [GL (CreateShader FRAGMENT_SHADER);
    GL (ShaderSource (VObj 2) "void main() { gl_FragColor = vec4(1.0) }");
    GL (CompileShader (VObj 2));
    GL (GetShaderParameter (VObj 2) COMPILE_STATUS);
    GL (GetShaderInfoLog (VObj 2));
    ConsoleError (VStr "ERROR: 0:1: syntax error");
    GL (DeleteShader (VObj 2))]).
Proof.
  split; [intros h c; eexists; reflexivity |].
  split; [reflexivity |].
  apply (createShader_compile_failure (page reject_fragment) 1 []
           FRAGMENT_SHADER "void main() { gl_FragColor = vec4(1.0) }").
  - intros h c; eexists; reflexivity.
  - reflexivity.
Defined.

(** C10. Given a context object whose calls return, [createShader] issues
    [deleteShader] on the shader it created if and only if the compile
    status check fails.  When the check succeeds the function returns that
    shader, and the only call it makes after [compileShader] is the status
    query itself. *)
Theorem createShader_deletes_iff_failure env g h type source :
  quiet env ->
  exists r added,
    createShader (VObj g) type source env h = (Returned r, h ++ added) /\
    (In (GL (DeleteShader (new_shader env h type))) added <->
     truthy (compile_status env h type source) = false) /\
    existsb is_delete_shader added =
      negb (truthy (compile_status env h type source)) /\
    (truthy (compile_status env h type source) = true ->
     r = new_shader env h type /\
     added = [GL (CreateShader type);
              GL (ShaderSource (new_shader env h type) source);
              GL (CompileShader (new_shader env h type));
              GL (GetShaderParameter (new_shader env h type) COMPILE_STATUS)]).
Proof.
  intros Hq. rewrite createShader_quiet by assumption.
  unfold compile_rejected, compile_checked, compiled.
  destruct (truthy (compile_status env h type source)) eqn:Hst;
    rewrite <- ?app_assoc; cbn [app]; do 2 eexists;
    (split; [reflexivity |]).
  - repeat split; try reflexivity.
    + cbn [In]. intros H.
      repeat (destruct H as [H | H]; [discriminate H |]). destruct H.
    + discriminate.
  - repeat split; try reflexivity.
    + cbn [In]. do 6 right. left. reflexivity.
    + discriminate.
    + discriminate.
Qed.

Lemma createShader_deletes_iff_failure_witness :
  let env := page reject_fragment in
  let sh := new_shader env [] FRAGMENT_SHADER in
  let status := compile_status env [] FRAGMENT_SHADER fragShader in
  quiet env /\
  exists r added,
    createShader (VObj 1) FRAGMENT_SHADER fragShader env [] =
      (Returned r, [] ++ added) /\
    (In (GL (DeleteShader sh)) added <-> truthy status = false) /\
    existsb is_delete_shader added = negb (truthy status) /\
    (truthy status = true ->
     r = sh /\
     added = [GL (CreateShader FRAGMENT_SHADER);
              GL (ShaderSource sh fragShader);
              GL (CompileShader sh);
              GL (GetShaderParameter sh COMPILE_STATUS)]).
Proof.
  intros env sh status.
  split; [intros h c; eexists; reflexivity |].
  apply (createShader_deletes_iff_failure env 1%nat [] FRAGMENT_SHADER
           fragShader).
  intros h c; eexists; reflexivity.
Defined.

(** [createShader] has no [throw] of its own: on a context object, an
    exception that leaves it was raised by a call of the implementation. *)
Lemma createShader_throws_only_with_backend env g h type source e h' :
  createShader (VObj g) type source env h = (Thrown e, h') ->
  exists h0 c, respond env h0 c = Thrown e.
Proof.
  unfold createShader, bind, gl_call, console_error, ret; cbn.
  repeat
    match goal with
    | |- context [respond env ?t ?c] =>
        let R := fresh "R" in
        destruct (respond env t c) as [? | ?] eqn:R;
        [| intros [= <- _]; eauto]
    | |- context [if ?b then _ else _] => destruct b
    end;
    discriminate.
Qed.

(** ** The program linker *)

Lemma gl_call_answered env g c h v :
  respond env h c = Returned v ->
  gl_call (VObj g) c env h = (Returned v, h ++ [GL c]).
Proof. intros R. unfold gl_call, bind; cbn. rewrite R. reflexivity. Qed.

Lemma gl_call_thrown env g c h e :
  respond env h c = Thrown e ->
  gl_call (VObj g) c env h = (Thrown e, h ++ [GL c]).
Proof. intros R. unfold gl_call, bind; cbn. rewrite R. reflexivity. Qed.

(** C2, as worded, fails: on a page whose binding refuses [null] for a
    shader, the fragment stage comes back [null], the attachment of that
    [null] is issued and throws, and the link is never reached. *)
Lemma attaches_and_links_fails :
  ~ attaches_and_links page_strict 1 vertShader fragShader.
Proof.
  intros H.
  destruct (H (VObj 2) _ VNull _ eq_refl eq_refl (or_intror eq_refl))
    as (r & rest & Hrun).
  vm_compute in Hrun. discriminate Hrun.
Qed.

(** C2, amended.  When the vertex or the fragment stage comes back from
    [createShader] as [null], [createProgram] has no short-circuit of its
    own: it issues [createProgram], [attachShader] with the first shader
    value, [attachShader] with the second and [linkProgram], in this order
    and with the values as received, [null] included.  The one thing that
    keeps it from the link is an exception raised by the implementation in
    one of the three calls before it (a binding that refuses [null]): the
    run then ends right at that call.  Against an implementation that
    answers every call, all four are issued and the function returns. *)
Theorem createProgram_does_not_short_circuit
  env g h vsrc fsrc vs h1 fs h2 :
  createShader (VObj g) VERTEX_SHADER vsrc env h = (Returned vs, h1) ->
  createShader (VObj g) FRAGMENT_SHADER fsrc env h1 = (Returned fs, h2) ->
  vs = VNull \/ fs = VNull ->
  let p := new_program env h2 in
  let run := createProgram (VObj g) vsrc fsrc env h in
  ((exists e,
      respond env h2 CreateProgram = Thrown e /\
      run = (Thrown e, h2 ++ [GL CreateProgram])) \/
   (exists e,
      respond env (h2 ++ [GL CreateProgram]) (AttachShader p vs) = Thrown e /\
      run = (Thrown e, h2 ++ [GL CreateProgram; GL (AttachShader p vs)])) \/
   (exists e,
      respond env (h2 ++ [GL CreateProgram; GL (AttachShader p vs)])
        (AttachShader p fs) = Thrown e /\
      run = (Thrown e,
             h2 ++ [GL CreateProgram;
                    GL (AttachShader p vs);
                    GL (AttachShader p fs)])) \/
   (exists r rest,
      run = (r,
             h2 ++ [GL CreateProgram;
                    GL (AttachShader p vs);
                    GL (AttachShader p fs);
                    GL (LinkProgram p)] ++ rest))) /\
  (quiet env ->
   exists r rest,
     run = (Returned r,
            h2 ++ [GL CreateProgram;
                   GL (AttachShader p vs);
                   GL (AttachShader p fs);
                   GL (LinkProgram p)] ++ rest)).
Proof.
  intros Hv Hf _ p run. split.
  - subst run. unfold createProgram.
    rewrite (bind_returned _ _ _ _ _ _
               (gl_const_object g VERTEX_SHADER env h)).
    rewrite (bind_returned _ _ _ _ _ _ Hv).
    rewrite (bind_returned _ _ _ _ _ _
               (gl_const_object g FRAGMENT_SHADER env h1)).
    rewrite (bind_returned _ _ _ _ _ _ Hf).
    subst p. unfold new_program, ans.
    destruct (respond env h2 CreateProgram) as [q | e] eqn:R0.
    2: { left. exists e. split; [reflexivity |].
         apply bind_thrown. apply gl_call_thrown. exact R0. }
    rewrite (bind_returned _ _ _ _ _ _ (gl_call_answered _ g _ _ _ R0)).
    destruct (respond env (h2 ++ [GL CreateProgram]) (AttachShader q vs))
      as [u1 | e] eqn:R1.
    2: { right; left. exists e. split; [reflexivity |].
         rewrite (bind_thrown _ _ _ _ _ _ (gl_call_thrown _ g _ _ _ R1)).
         rewrite <- app_assoc. reflexivity. }
    rewrite (bind_returned _ _ _ _ _ _ (gl_call_answered _ g _ _ _ R1)).
    rewrite <- app_assoc. cbn [app].
    destruct (respond env (h2 ++ [GL CreateProgram; GL (AttachShader q vs)])
                (AttachShader q fs)) as [u2 | e] eqn:R2.
    2: { right; right; left. exists e. split; [reflexivity |].
         rewrite (bind_thrown _ _ _ _ _ _ (gl_call_thrown _ g _ _ _ R2)).
         rewrite <- app_assoc. reflexivity. }
    rewrite (bind_returned _ _ _ _ _ _ (gl_call_answered _ g _ _ _ R2)).
    rewrite <- app_assoc. cbn [app].
    right; right; right.
    destruct (respond env
                (h2 ++ [GL CreateProgram; GL (AttachShader q vs);
                        GL (AttachShader q fs)])
                (LinkProgram q)) as [u3 | e] eqn:R3.
    2: { exists (Thrown e), [].
         rewrite (bind_thrown _ _ _ _ _ _ (gl_call_thrown _ g _ _ _ R3)).
         rewrite <- app_assoc. reflexivity. }
    rewrite (bind_returned _ _ _ _ _ _ (gl_call_answered _ g _ _ _ R3)).
    rewrite <- app_assoc. cbn [app].
    unfold bind, gl_call, console_error, ret; cbn.
    repeat
      match goal with
      | |- context [respond env ?t ?c] => destruct (respond env t c)
      | |- context [if ?b then _ else _] => destruct b
      end;
      eexists; eexists; f_equal; rewrite <- ?app_assoc; cbn [app];
      reflexivity.
  - intros Hq. subst run p.
    rewrite (createProgram_quiet _ _ _ _ _ _ _ _ _ Hq Hv Hf).
    unfold link_rejected, link_checked, linked.
    destruct (truthy _); rewrite <- ?app_assoc; cbn [app];
      do 2 eexists; reflexivity.
Qed.

Lemma createProgram_does_not_short_circuit_witness :
  let h1 := snd (createShader (VObj 1) VERTEX_SHADER vertShader
                   page_strict []) in
  let h2 := snd (createShader (VObj 1) FRAGMENT_SHADER fragShader
                   page_strict h1) in
  let p := new_program page_strict h2 in
  let run := createProgram (VObj 1) vertShader fragShader page_strict [] in
  ((exists e,
      respond page_strict h2 CreateProgram = Thrown e /\
      run = (Thrown e, h2 ++ [GL CreateProgram])) \/
   (exists e,
      respond page_strict (h2 ++ [GL CreateProgram])
        (AttachShader p (VObj 2)) = Thrown e /\
      run = (Thrown e,
             h2 ++ [GL CreateProgram; GL (AttachShader p (VObj 2))])) \/
   (exists e,
      respond page_strict
        (h2 ++ [GL CreateProgram; GL (AttachShader p (VObj 2))])
        (AttachShader p VNull) = Thrown e /\
      run = (Thrown e,
             h2 ++ [GL CreateProgram;
                    GL (AttachShader p (VObj 2));
                    GL (AttachShader p VNull)])) \/
   (exists r rest,
      run = (r,
             h2 ++ [GL CreateProgram;
                    GL (AttachShader p (VObj 2));
                    GL (AttachShader p VNull);
                    GL (LinkProgram p)] ++ rest))) /\
  exists r rest,
    createProgram (VObj 1) vertShader fragShader (page reject_fragment) [] =
    (Returned r,
     h2 ++ [GL CreateProgram;
            GL (AttachShader (VObj 13) (VObj 2));
            GL (AttachShader (VObj 13) VNull);
            GL (LinkProgram (VObj 13))] ++ rest).
Proof.
  intros h1 h2 p run. split.
  - apply (proj1 (createProgram_does_not_short_circuit page_strict 1 []
                    vertShader fragShader (VObj 2) h1 VNull h2
                    eq_refl eq_refl (or_intror eq_refl))).
  - apply (proj2 (createProgram_does_not_short_circuit
                    (page reject_fragment) 1 []
                    vertShader fragShader (VObj 2) h1 VNull h2
                    eq_refl eq_refl (or_intror eq_refl))).
    intros h c; eexists; reflexivity.
Defined.

(** The attachment of [null] is issued even where the binding refuses it:
    on the strict page the exception is raised by that very call, and the
    link is not reached. *)
Example createProgram_strict_binding :
  let h2 := snd (createShader (VObj 1) FRAGMENT_SHADER fragShader page_strict
                   (snd (createShader (VObj 1) VERTEX_SHADER vertShader
                           page_strict []))) in
  createProgram (VObj 1) vertShader fragShader page_strict [] =
  (Thrown TypeError,
   h2 ++ [GL CreateProgram;
          GL (AttachShader (VObj 13) (VObj 2));
          GL (AttachShader (VObj 13) VNull)]).
Proof. reflexivity. Qed.

(** C4. Given a context object whose calls return, whenever the link
    status check of [createProgram] fails, the function asks the implementation for the program's info log, passes
    exactly that text to [console.error] and returns [null]; nothing it
    does from start to end is a [deleteProgram] call, so the program object
    is left as it is. *)
Theorem createProgram_link_failure env g h vsrc fsrc vs h1 fs h2 :
  quiet env ->
  createShader (VObj g) VERTEX_SHADER vsrc env h = (Returned vs, h1) ->
  createShader (VObj g) FRAGMENT_SHADER fsrc env h1 = (Returned fs, h2) ->
  truthy (link_status env h2 vs fs) = false ->
  createProgram (VObj g) vsrc fsrc env h =
  (Returned VNull,
   link_checked env h2 vs fs ++
   [GL (GetProgramInfoLog (new_program env h2));
    ConsoleError (program_info_log env h2 vs fs)]) /\
  exists added,
    snd (createProgram (VObj g) vsrc fsrc env h) = h ++ added /\
    existsb is_delete_program added = false.
Proof.
  intros Hq Hv Hf Hfail. split.
  - rewrite (createProgram_quiet _ _ _ _ _ _ _ _ _ Hq Hv Hf), Hfail.
    reflexivity.
  - destruct (createProgram_added env g h vsrc fsrc Hq)
      as (r & added & Hrun & Hadded).
    exists added. rewrite Hrun. split; [reflexivity |].
    clear Hrun. induction added as [| e added IH]; [reflexivity |].
    cbn [forallb existsb] in *.
    apply andb_true_iff in Hadded as [He Hadded].
    rewrite (is_build_not_delete_program e He). auto.
Qed.

Lemma createProgram_link_failure_witness :
  let env := page reject_fragment in
  let h1 := snd (createShader (VObj 1) VERTEX_SHADER vertShader env []) in
  let h2 := snd (createShader (VObj 1) FRAGMENT_SHADER fragShader env h1) in
  truthy (link_status env h2 (VObj 2) VNull) = false /\
  createProgram (VObj 1) vertShader fragShader env [] =
  (Returned VNull,
   h2 ++ [GL CreateProgram;
          GL (AttachShader (VObj 13) (VObj 2));
          GL (AttachShader (VObj 13) VNull);
          GL (LinkProgram (VObj 13));
          GL (GetProgramParameter (VObj 13) LINK_STATUS);
          GL (GetProgramInfoLog (VObj 13));
          ConsoleError (VStr "ERROR: missing or invalid shader")]).
Proof.
  intros env h1 h2. split; [reflexivity |].
  apply (createProgram_link_failure env 1 []
           vertShader fragShader (VObj 2) h1 VNull h2).
  - intros h c; eexists; reflexivity.
  - reflexivity.
  - reflexivity.
  - reflexivity.
Defined.

(** ** The whole script against a quiet implementation *)

Lemma when_false m env h : when false m env h = (Returned tt, h).
Proof. reflexivity. Qed.

Lemma when_true m env h : when true m env h = m env h.
Proof. reflexivity. Qed.

Lemma main_quiet env c g program t0 :
  getElementById env "leCanvas" = VObj c ->
  getContext env (VObj c) "webgl" = VObj g ->
  quiet env ->
  createProgram (VObj g) vertShader fragShader env [] =
    (Returned program, t0) ->
  let t1 := if truthy program then t0
            else t0 ++ [ConsoleError (VStr "Failed to create program :(")] in
  let t2 := attribute_ready env t1 program "a_points" 2 points_arr in
  let t3 := attribute_ready env t2 program "a_colors" 4 colors_arr in
  main env [] =
  (Returned tt,
   t3 ++ [GL (Viewport 0 0 (canvas_width env) (canvas_height env));
          GL (ClearColor 0 0 0 1);
          GL (Clear COLOR_BUFFER_BIT);
          GL (UseProgram program);
          GL (DrawArrays TRIANGLES 0 3)]).
Proof.
  intros Hc Hg Hq Hp t1 t2 t3. unfold main.
  rewrite (bind_returned _ _ env [] (VObj c) [])
    by (unfold document_getElementById; rewrite Hc; reflexivity).
  cbn [truthy negb].
  rewrite (bind_returned _ _ env [] tt []) by apply when_false.
  rewrite (bind_returned _ _ env [] (VObj g) [])
    by (unfold canvas_getContext, bind; cbn; rewrite Hg; reflexivity).
  cbn [truthy negb].
  rewrite (bind_returned _ _ env [] tt []) by apply when_false.
  rewrite (bind_returned _ _ _ _ _ _ Hp).
  rewrite (bind_returned _ _ env t0 tt t1)
    by (subst t1; destruct (truthy program); reflexivity).
  unfold Float32Array.
  do 14 js_step.
  rewrite (bind_returned _ _ env _ (canvas_width env) _) by reflexivity.
  rewrite (bind_returned _ _ env _ (canvas_height env) _) by reflexivity.
  js_run.
  subst t3 t2.
  unfold attribute_ready, attribute_setup, attrib_location, uploaded,
    new_buffer.
  rewrite <- ?app_assoc; cbn [app]. reflexivity.
Qed.

(** ** Failure paths of the script *)

Lemma logs_text_app t u : logs_text (t ++ u) = logs_text t || logs_text u.
Proof. apply existsb_app. Qed.

(** C1, as worded, fails on either kind of page.  Where the implementation
    answers every call, a rejected fragment stage makes [createProgram]
    return [null] and texts are logged, but the script goes on and issues
    its draw call.  Where the binding refuses [null] for a shader, nothing
    is drawn, but [createProgram] does not return [null]: it ends in the
    [TypeError] of the refused attachment. *)
Lemma no_draw_after_rejection_fails :
  (fragment_rejected (page reject_fragment) = true /\
   existsb is_draw (snd (main (page reject_fragment) [])) = true /\
   ~ no_draw_after_rejection (page reject_fragment)) /\
  (fragment_rejected page_strict = true /\
   fst (createProgram (VObj 1) vertShader fragShader page_strict [])
     = Thrown TypeError /\
   ~ no_draw_after_rejection page_strict).
Proof.
  split.
  - split; [reflexivity |]. split; [reflexivity |].
    intros H. destruct (H eq_refl) as (_ & _ & Hdraw).
    vm_compute in Hdraw. discriminate Hdraw.
  - split; [reflexivity |]. split; [reflexivity |].
    intros H. destruct (H eq_refl) as (Hnull & _).
    vm_compute in Hnull. discriminate Hnull.
Qed.

(** C9, as worded, fails: without the canvas, and likewise without the
    context, the script logs its message and the very next use of the
    missing handle raises [TypeError], which ends the run with nothing else
    in the trace. *)
Lemma carries_on_without_handle_fails :
  main page_without_canvas [] =
    (Thrown TypeError, [ConsoleError (VStr "Canvas not found :(")]) /\
  main page_without_webgl [] =
    (Thrown TypeError, [ConsoleError (VStr "WebGL not supported :(")]) /\
  ~ carries_on_without_handle page_without_canvas /\
  ~ carries_on_without_handle page_without_webgl.
Proof.
  split; [reflexivity |]. split; [reflexivity |].
  split; intros H.
  - destruct (H (or_introl eq_refl)) as [_ Hgo].
    exact (Hgo TypeError eq_refl).
  - destruct (H (or_intror eq_refl)) as [_ Hgo].
    exact (Hgo TypeError eq_refl).
Qed.

(** C9, amended.  The script has no guard after either lookup: when the
    canvas is missing it logs [Canvas not found :(] and the next statement,
    which reads [getContext] off the missing canvas, raises [TypeError];
    when the canvas is there and the context is missing it logs
    [WebGL not supported :(] and the next statement, which reads a constant
    off the missing context, raises [TypeError].  Either way the exception
    ends the script: no WebGL call is made and nothing more is logged. *)
Theorem missing_handle_stops_script env :
  (truthy (the_canvas env) = false ->
   main env [] =
     (Thrown TypeError, [ConsoleError (VStr "Canvas not found :(")])) /\
  (is_object (the_canvas env) = true ->
   truthy (the_context env) = false ->
   main env [] =
     (Thrown TypeError, [ConsoleError (VStr "WebGL not supported :(")])).
Proof.
  unfold the_context, the_canvas. split.
  - intros Hc. unfold main.
    rewrite (bind_returned _ _ env [] (getElementById env "leCanvas") [])
      by reflexivity.
    rewrite Hc. cbn [negb].
    rewrite (bind_returned _ _ env [] tt
               [ConsoleError (VStr "Canvas not found :(")])
      by reflexivity.
    apply bind_thrown. unfold canvas_getContext.
    apply bind_thrown. apply deref_falsy. exact Hc.
  - intros Ho Hg. unfold main.
    rewrite (bind_returned _ _ env [] (getElementById env "leCanvas") [])
      by reflexivity.
    destruct (getElementById env "leCanvas") as [| | | | | c] eqn:Hc;
      try discriminate Ho.
    cbn [truthy negb].
    rewrite (bind_returned _ _ env [] tt []) by reflexivity.
    rewrite (bind_returned _ _ env [] (getContext env (VObj c) "webgl") [])
      by reflexivity.
    rewrite Hg. cbn [negb].
    rewrite (bind_returned _ _ env [] tt
               [ConsoleError (VStr "WebGL not supported :(")])
      by reflexivity.
    apply bind_thrown. unfold createProgram.
    apply bind_thrown. unfold gl_const.
    apply bind_thrown. apply deref_falsy. exact Hg.
Qed.

Lemma missing_handle_stops_script_witness :
  main page_without_canvas [] =
    (Thrown TypeError, [ConsoleError (VStr "Canvas not found :(")]) /\
  main page_without_webgl [] =
    (Thrown TypeError, [ConsoleError (VStr "WebGL not supported :(")]).
Proof.
  split.
  - apply (proj1 (missing_handle_stops_script page_without_canvas)).
    reflexivity.
  - apply (proj2 (missing_handle_stops_script page_without_webgl)).
    + reflexivity.
    + reflexivity.
Defined.

(** ** What every run keeps true *)

Section Preserves.
Variable P : event -> Prop.

Lemma preserves_ret {A} (a : A) : preserves P (ret a).
Proof. intros env h Hh. exact Hh. Qed.

Lemma preserves_throw {A} e : preserves P (@throw A e).
Proof. intros env h Hh. exact Hh. Qed.

Lemma preserves_bind {A B} (m : M A) (k : A -> M B) :
  preserves P m -> (forall a, preserves P (k a)) -> preserves P (bind m k).
Proof.
  intros Hm Hk env h Hh. unfold bind.
  specialize (Hm env h Hh).
  destruct (m env h) as [[a | e] h']; cbn [snd] in Hm.
  - apply Hk. exact Hm.
  - exact Hm.
Qed.

Lemma preserves_deref o : preserves P (deref o).
Proof.
  unfold deref. destruct (is_object o);
    [apply preserves_ret | apply preserves_throw].
Qed.

Lemma preserves_read {A} o (f : Env -> A) :
  preserves P (deref o ;; fun env h => (Returned (f env), h)).
Proof.
  apply preserves_bind; [apply preserves_deref |].
  intros _ env h Hh. exact Hh.
Qed.

Lemma preserves_gl_const gl e : preserves P (gl_const gl e).
Proof.
  apply preserves_bind; [apply preserves_deref |].
  intros _. apply preserves_ret.
Qed.

Lemma preserves_gl_call gl c : P (GL c) -> preserves P (gl_call gl c).
Proof.
  intros Hc. apply preserves_bind; [apply preserves_deref |].
  intros _ env h Hh. cbn [snd].
  apply Forall_app. split; [exact Hh | repeat constructor; exact Hc].
Qed.

Lemma preserves_console_error v :
  P (ConsoleError v) -> preserves P (console_error v).
Proof.
  intros Hv env h Hh. cbn [snd console_error].
  apply Forall_app. split; [exact Hh | repeat constructor; exact Hv].
Qed.

Lemma preserves_when c m : preserves P m -> preserves P (when c m).
Proof. intros Hm. destruct c; [exact Hm | apply preserves_ret]. Qed.

Lemma preserves_getElementById id : preserves P (document_getElementById id).
Proof. intros env h Hh. exact Hh. Qed.
End Preserves.

(** Walks through a script statement by statement. *)
Ltac preserve :=
  repeat first
    [ apply preserves_ret
    | apply preserves_getElementById
    | apply preserves_read
    | apply preserves_gl_const
    | apply preserves_when
    | apply preserves_gl_call
    | apply preserves_console_error
    | match goal with
      | |- preserves _ (if ?b then _ else _) => destruct b
      end
    | apply preserves_bind; [| intros ?] ].

Lemma createShader_uploads_nothing gl type source :
  preserves uploads_constant (createShader gl type source).
Proof. unfold createShader. preserve; exact I. Qed.

Lemma createProgram_uploads_nothing gl vsrc fsrc :
  preserves uploads_constant (createProgram gl vsrc fsrc).
Proof.
  unfold createProgram.
  preserve; try exact I; apply createShader_uploads_nothing.
Qed.

Lemma main_uploads_constants : preserves uploads_constant main.
Proof.
  unfold main, canvas_getContext, gl_canvas_width, gl_canvas_height,
    Float32Array.
  preserve; try exact I; try apply createProgram_uploads_nothing;
    cbn; auto.
Qed.

(** ** The vertex data *)

(** C5. Read two numbers at a time, the position array is the three points
    (-1,-1), (0, 1/2), (1,-1); read four at a time, the color array is red,
    green and blue, each with alpha 1.  They are constants of the script,
    and in every run, whatever the page and the implementation do, each
    upload to a buffer carries one of the two arrays as written. *)
Theorem vertex_arrays_fixed :
  map (vertex_attr 2 points_arr) [0; 1; 2]%nat =
    [[-1; -1]; [0; 1 # 2]; [1; -1]]%Q /\
  List.length points_arr = 6%nat /\
  map (vertex_attr 4 colors_arr) [0; 1; 2]%nat =
    [[1; 0; 0; 1]; [0; 1; 0; 1]; [0; 0; 1; 1]]%Q /\
  List.length colors_arr = 12%nat /\
  map (fun i => nth 3 (vertex_attr 4 colors_arr i) 0%Q) [0; 1; 2]%nat =
    [1; 1; 1]%Q /\
  forall env, Forall uploads_constant (snd (main env [])).
Proof.
  repeat (split; [reflexivity |]).
  intros env. apply main_uploads_constants. constructor.
Qed.

(** C6. The position array holds 6 / 2 = 3 vertices and the color array
    12 / 4 = 3, and the two are in the same order: vertex 0 is (-1,-1) and
    red, vertex 1 is (0, 1/2) and green, vertex 2 is (1,-1) and blue. *)
Theorem vertex_counts_match :
  vertex_count 2 points_arr = 3%nat /\
  vertex_count 4 colors_arr = 3%nat /\
  Nat.div (List.length points_arr) 2 = Nat.div (List.length colors_arr) 4 /\
  map (fun i => (vertex_attr 2 points_arr i, vertex_attr 4 colors_arr i))
      (seq 0 (vertex_count 2 points_arr)) =
    [([-1; -1], [1; 0; 0; 1]);
     ([0; 1 # 2], [0; 1; 0; 1]);
     ([1; -1], [0; 0; 1; 1])]%Q.
Proof. repeat split; reflexivity. Qed.

(** ** Attribute layout and draw submission *)

Lemma build_has_no_layout l :
  forallb is_build l = true -> filter is_layout l = [].
Proof.
  induction l as [| e l IH]; [reflexivity |].
  cbn [forallb filter]. intros H. apply andb_true_iff in H as [He Hl].
  rewrite (is_build_not_layout e He). auto.
Qed.

Lemma build_has_no_submission l :
  forallb is_build l = true -> filter is_submission l = [].
Proof.
  induction l as [| e l IH]; [reflexivity |].
  cbn [forallb filter]. intros H. apply andb_true_iff in H as [He Hl].
  rewrite (is_build_not_submission e He). auto.
Qed.

(** The script up to the end of the program check, against a quiet
    implementation: the result of [createProgram] and a trace of build
    events. *)
Lemma main_built env c g :
  getElementById env "leCanvas" = VObj c ->
  getContext env (VObj c) "webgl" = VObj g ->
  quiet env ->
  exists program t0 t1,
    createProgram (VObj g) vertShader fragShader env [] =
      (Returned program, t0) /\
    forallb is_build t1 = true /\
    main env [] =
    (Returned tt,
     t1 ++ attribute_setup env t1 program "a_points" 2 points_arr ++
     attribute_setup env
       (attribute_ready env t1 program "a_points" 2 points_arr)
       program "a_colors" 4 colors_arr ++
     [GL (Viewport 0 0 (canvas_width env) (canvas_height env));
      GL (ClearColor 0 0 0 1);
      GL (Clear COLOR_BUFFER_BIT);
      GL (UseProgram program);
      GL (DrawArrays TRIANGLES 0 3)]).
Proof.
  intros Hc Hg Hq.
  destruct (createProgram_added env g [] vertShader fragShader Hq)
    as (program & t0 & Hp & Ht0).
  cbn [app] in Hp.
  exists program, t0.
  exists (if truthy program then t0
          else t0 ++ [ConsoleError (VStr "Failed to create program :(")]).
  split; [exact Hp |]. split.
  - destruct (truthy program); [exact Ht0 |].
    rewrite forallb_app, Ht0. reflexivity.
  - rewrite (main_quiet env c g program t0 Hc Hg Hq Hp). cbv zeta.
    unfold attribute_ready. rewrite <- !app_assoc. reflexivity.
Qed.

(** C7. In a run with the canvas, a context and an implementation that
    answers, the script describes exactly two attribute layouts.  For
    [a_points]: the slot resolved for that name, 2 components, [FLOAT], not
    normalized, stride 0, offset 0, and the slot is enabled next.  For
    [a_colors]: the same with 4 components. *)
Theorem attribute_layouts env c g :
  getElementById env "leCanvas" = VObj c ->
  getContext env (VObj c) "webgl" = VObj g ->
  quiet env ->
  exists program t0 t1 rest,
    let t2 := attribute_ready env t1 program "a_points" 2 points_arr in
    let points_slot := attrib_location env t1 program "a_points" points_arr in
    let colors_slot := attrib_location env t2 program "a_colors" colors_arr in
    createProgram (VObj g) vertShader fragShader env [] =
      (Returned program, t0) /\
    snd (main env []) =
      t1 ++
      [GL CreateBuffer;
       GL (BindBuffer ARRAY_BUFFER (new_buffer env t1));
       GL (BufferData ARRAY_BUFFER points_arr STATIC_DRAW);
       GL (GetAttribLocation program "a_points");
       GL (BindBuffer ARRAY_BUFFER (new_buffer env t1));
       GL (VertexAttribPointer points_slot 2 FLOAT false 0 0);
       GL (EnableVertexAttribArray points_slot)] ++
      [GL CreateBuffer;
       GL (BindBuffer ARRAY_BUFFER (new_buffer env t2));
       GL (BufferData ARRAY_BUFFER colors_arr STATIC_DRAW);
       GL (GetAttribLocation program "a_colors");
       GL (BindBuffer ARRAY_BUFFER (new_buffer env t2));
       GL (VertexAttribPointer colors_slot 4 FLOAT false 0 0);
       GL (EnableVertexAttribArray colors_slot)] ++ rest /\
    filter is_layout (snd (main env [])) =
      [GL (VertexAttribPointer points_slot 2 FLOAT false 0 0);
       GL (EnableVertexAttribArray points_slot);
       GL (VertexAttribPointer colors_slot 4 FLOAT false 0 0);
       GL (EnableVertexAttribArray colors_slot)].
Proof.
  intros Hc Hg Hq.
  destruct (main_built env c g Hc Hg Hq)
    as (program & t0 & t1 & Hp & Ht1 & Hmain).
  exists program, t0, t1. eexists. cbv zeta.
  split; [exact Hp |].
  rewrite Hmain. cbn [snd]. split.
  - reflexivity.
  - rewrite filter_app, (build_has_no_layout t1 Ht1). reflexivity.
Qed.

(** C8. In a run with the canvas, a context and an implementation that
    answers, the script ends with the draw submission: viewport at (0, 0)
    with the width and height of the surface, clear color (0, 0, 0, 1),
    clear of the color buffer, [useProgram] on the result of
    [createProgram], and [drawArrays(TRIANGLES, 0, 3)].  None of these five
    calls occurs earlier in the run, so the sequence, and the draw call in
    it, happen once. *)
Theorem draw_submission env c g :
  getElementById env "leCanvas" = VObj c ->
  getContext env (VObj c) "webgl" = VObj g ->
  quiet env ->
  exists program t0 before,
    createProgram (VObj g) vertShader fragShader env [] =
      (Returned program, t0) /\
    main env [] =
    (Returned tt,
     before ++
     [GL (Viewport 0 0 (canvas_width env) (canvas_height env));
      GL (ClearColor 0 0 0 1);
      GL (Clear COLOR_BUFFER_BIT);
      GL (UseProgram program);
      GL (DrawArrays TRIANGLES 0 3)]) /\
    filter is_submission before = [] /\
    List.length (filter is_draw (snd (main env []))) = 1%nat.
Proof.
  intros Hc Hg Hq.
  destruct (main_built env c g Hc Hg Hq)
    as (program & t0 & t1 & Hp & Ht1 & Hmain).
  exists program, t0.
  exists (t1 ++ attribute_setup env t1 program "a_points" 2 points_arr ++
          attribute_setup env
            (attribute_ready env t1 program "a_points" 2 points_arr)
            program "a_colors" 4 colors_arr).
  split; [exact Hp |]. split; [| split].
  - rewrite Hmain. rewrite <- !app_assoc. reflexivity.
  - rewrite !filter_app, (build_has_no_submission t1 Ht1). reflexivity.
  - rewrite Hmain. cbn [snd]. rewrite !filter_app.
    assert (Hnone : filter is_draw t1 = []).
    { clear Hmain. induction t1 as [| e t1 IH]; [reflexivity |].
      cbn [forallb filter] in *.
      apply andb_true_iff in Ht1 as [He Ht1].
      destruct e as [v | []]; try discriminate He; cbn [is_draw]; auto. }
    rewrite Hnone. reflexivity.
Qed.

Lemma attribute_layouts_witness :
  let env := page accept_all in
  quiet env /\
  exists program t1,
    let t2 := attribute_ready env t1 program "a_points" 2 points_arr in
    let points_slot := attrib_location env t1 program "a_points" points_arr in
    let colors_slot := attrib_location env t2 program "a_colors" colors_arr in
    filter is_layout (snd (main env [])) =
      [GL (VertexAttribPointer points_slot 2 FLOAT false 0 0);
       GL (EnableVertexAttribArray points_slot);
       GL (VertexAttribPointer colors_slot 4 FLOAT false 0 0);
       GL (EnableVertexAttribArray colors_slot)].
Proof.
  intros env.
  assert (Hq : quiet env) by (intros h c; eexists; reflexivity).
  split; [exact Hq |].
  destruct (attribute_layouts env 0%nat 1%nat eq_refl eq_refl Hq)
    as (program & t0 & t1 & rest & _ & _ & Hlayout).
  exists program, t1. exact Hlayout.
Defined.

Lemma draw_submission_witness :
  let env := page accept_all in
  quiet env /\
  exists program before,
    main env [] =
    (Returned tt,
     before ++
     [GL (Viewport 0 0 300 150);
      GL (ClearColor 0 0 0 1);
      GL (Clear COLOR_BUFFER_BIT);
      GL (UseProgram program);
      GL (DrawArrays TRIANGLES 0 3)]) /\
    filter is_submission before = [] /\
    List.length (filter is_draw (snd (main env []))) = 1%nat.
Proof.
  intros env.
  assert (Hq : quiet env) by (intros h c; eexists; reflexivity).
  split; [exact Hq |].
  destruct (draw_submission env 0%nat 1%nat eq_refl eq_refl Hq)
    as (program & t0 & before & _ & Hmain & Hbefore & Hone).
  exists program, before. repeat split; assumption.
Defined.

(** * Further properties of the code *)

(** ** [createShader] and [createProgram] at their edges *)

(** X1. Called with a context that is not an object ([null] when WebGL is
    unavailable), [createShader] raises [TypeError] at once: no call is
    issued and nothing is logged, the trace is as it was. *)
Theorem createShader_without_context gl type source env h :
  is_object gl = false ->
  createShader gl type source env h = (Thrown TypeError, h).
Proof.
  intros Hgl. unfold createShader.
  apply bind_thrown. unfold gl_call. apply bind_thrown.
  unfold deref. rewrite Hgl. reflexivity.
Qed.

Lemma createShader_without_context_witness :
  is_object VNull = false /\
  createShader VNull VERTEX_SHADER vertShader (page accept_all) [] =
    (Thrown TypeError, []).
Proof.
  split; [reflexivity |].
  apply (createShader_without_context VNull VERTEX_SHADER vertShader
           (page accept_all) []).
  reflexivity.
Defined.

(** X2. Called with a context that is not an object, [createProgram] raises
    [TypeError] while reading [gl.VERTEX_SHADER], before either stage is
    compiled: the trace is as it was. *)
Theorem createProgram_without_context gl vsrc fsrc env h :
  is_object gl = false ->
  createProgram gl vsrc fsrc env h = (Thrown TypeError, h).
Proof.
  intros Hgl. unfold createProgram.
  apply bind_thrown. unfold gl_const. apply bind_thrown.
  unfold deref. rewrite Hgl. reflexivity.
Qed.

Lemma createProgram_without_context_witness :
  is_object VNull = false /\
  createProgram VNull vertShader fragShader (page accept_all) [] =
    (Thrown TypeError, []).
Proof.
  split; [reflexivity |].
  apply (createProgram_without_context VNull vertShader fragShader
           (page accept_all) []).
  reflexivity.
Defined.

(** X3. Given a context object whose calls return, the result of
    [createShader] is the handle the implementation made when the compile
    status check passes and [null] otherwise, never anything else; and what
    it writes to the console is nothing when the check passes and the one
    info log when it fails. *)
Theorem createShader_result_and_log env g h type source :
  quiet env ->
  exists r added,
    createShader (VObj g) type source env h = (Returned r, h ++ added) /\
    r = (if truthy (compile_status env h type source)
         then new_shader env h type else VNull) /\
    filter is_console added =
      (if truthy (compile_status env h type source) then []
       else [ConsoleError (shader_info_log env h type source)]).
Proof.
  intros Hq. rewrite createShader_quiet by assumption.
  unfold compile_rejected, compile_checked, compiled.
  destruct (truthy (compile_status env h type source));
    rewrite <- ?app_assoc; cbn [app]; do 2 eexists;
    (split; [reflexivity |]); split; reflexivity.
Qed.

Lemma createShader_result_and_log_witness :
  let env := page accept_all in
  quiet env /\
  exists r added,
    createShader (VObj 1) VERTEX_SHADER vertShader env [] =
      (Returned r, [] ++ added) /\
    r = (if truthy (compile_status env [] VERTEX_SHADER vertShader)
         then new_shader env [] VERTEX_SHADER else VNull) /\
    filter is_console added =
      (if truthy (compile_status env [] VERTEX_SHADER vertShader) then []
       else [ConsoleError (shader_info_log env [] VERTEX_SHADER vertShader)]).
Proof.
  intros env.
  split; [intros h c; eexists; reflexivity |].
  apply (createShader_result_and_log env 1%nat [] VERTEX_SHADER vertShader).
  intros h c; eexists; reflexivity.
Defined.

(** X4. Given a context object whose calls return, when both compile status
    checks and the link status check pass, [createProgram] returns the
    program handle the implementation made, and all it does is thirteen
    calls: four per stage, vertex first, then create, attach vertex, attach
    fragment, link and the link status query.  Nothing is logged and nothing
    is deleted. *)
Theorem createProgram_success env g h vsrc fsrc :
  quiet env ->
  let vs := new_shader env h VERTEX_SHADER in
  let h1 := compile_checked env h VERTEX_SHADER vsrc in
  let fs := new_shader env h1 FRAGMENT_SHADER in
  let h2 := compile_checked env h1 FRAGMENT_SHADER fsrc in
  let program := new_program env h2 in
  truthy (compile_status env h VERTEX_SHADER vsrc) = true ->
  truthy (compile_status env h1 FRAGMENT_SHADER fsrc) = true ->
  truthy (link_status env h2 vs fs) = true ->
  createProgram (VObj g) vsrc fsrc env h =
  (Returned program,
   h ++ [GL (CreateShader VERTEX_SHADER);
         GL (ShaderSource vs vsrc);
         GL (CompileShader vs);
         GL (GetShaderParameter vs COMPILE_STATUS);
         GL (CreateShader FRAGMENT_SHADER);
         GL (ShaderSource fs fsrc);
         GL (CompileShader fs);
         GL (GetShaderParameter fs COMPILE_STATUS);
         GL CreateProgram;
         GL (AttachShader program vs);
         GL (AttachShader program fs);
         GL (LinkProgram program);
         GL (GetProgramParameter program LINK_STATUS)]).
Proof.
  intros Hq vs h1 fs h2 program Hv Hf Hl.
  assert (Rv : createShader (VObj g) VERTEX_SHADER vsrc env h =
               (Returned vs, h1))
    by (rewrite createShader_quiet, Hv by assumption; reflexivity).
  assert (Rf : createShader (VObj g) FRAGMENT_SHADER fsrc env h1 =
               (Returned fs, h2))
    by (rewrite createShader_quiet, Hf by assumption; reflexivity).
  rewrite (createProgram_quiet _ _ _ _ _ _ _ _ _ Hq Rv Rf), Hl.
  unfold link_checked, linked.
  change (new_program env h2) with program.
  clear Hl Rf Rv Hf Hv. clearbody program.
  unfold h2, compile_checked at 1, compiled at 1.
  change (new_shader env h1 FRAGMENT_SHADER) with fs.
  clearbody fs.
  unfold h1, compile_checked, compiled.
  change (new_shader env h VERTEX_SHADER) with vs.
  clearbody vs.
  rewrite <- !app_assoc. reflexivity.
Qed.

Lemma createProgram_success_witness :
  let env := page accept_all in
  quiet env /\
  createProgram (VObj 1) vertShader fragShader env [] =
  (Returned (VObj 10),
   [GL (CreateShader VERTEX_SHADER);
    GL (ShaderSource (VObj 2) vertShader);
    GL (CompileShader (VObj 2));
    GL (GetShaderParameter (VObj 2) COMPILE_STATUS);
    GL (CreateShader FRAGMENT_SHADER);
    GL (ShaderSource (VObj 6) fragShader);
    GL (CompileShader (VObj 6));
    GL (GetShaderParameter (VObj 6) COMPILE_STATUS);
    GL CreateProgram;
    GL (AttachShader (VObj 10) (VObj 2));
    GL (AttachShader (VObj 10) (VObj 6));
    GL (LinkProgram (VObj 10));
    GL (GetProgramParameter (VObj 10) LINK_STATUS)]).
Proof.
  intros env.
  split; [intros h c; eexists; reflexivity |].
  apply (createProgram_success env 1%nat [] vertShader fragShader).
  - intros h c; eexists; reflexivity.
  - reflexivity.
  - reflexivity.
  - reflexivity.
Defined.

Lemma createShader_stage_setup env g h type source :
  quiet env ->
  exists r added,
    createShader (VObj g) type source env h = (Returned r, h ++ added) /\
    filter is_stage_setup added =
      [GL (CreateShader type);
       GL (ShaderSource (new_shader env h type) source)].
Proof.
  intros Hq. rewrite createShader_quiet by assumption.
  unfold compile_rejected, compile_checked, compiled.
  destruct (truthy _); rewrite <- ?app_assoc; cbn [app];
    do 2 eexists; split; reflexivity.
Qed.

(** X5. Given a context object whose calls return, [createProgram] always
    sets up both stages, the vertex stage first, whether or not either
    compilation fails; the vertex source goes to the vertex shader and the
    fragment source to the fragment shader. *)
Theorem createProgram_compiles_both_stages env g h vsrc fsrc :
  quiet env ->
  let h1 := snd (createShader (VObj g) VERTEX_SHADER vsrc env h) in
  exists r added,
    createProgram (VObj g) vsrc fsrc env h = (Returned r, h ++ added) /\
    filter is_stage_setup added =
      [GL (CreateShader VERTEX_SHADER);
       GL (ShaderSource (new_shader env h VERTEX_SHADER) vsrc);
       GL (CreateShader FRAGMENT_SHADER);
       GL (ShaderSource (new_shader env h1 FRAGMENT_SHADER) fsrc)].
Proof.
  intros Hq h1.
  destruct (createShader_stage_setup env g h VERTEX_SHADER vsrc Hq)
    as (vs & a1 & Hv & Ha1).
  assert (Hh1 : h1 = h ++ a1) by (unfold h1; rewrite Hv; reflexivity).
  clearbody h1. subst h1.
  destruct (createShader_stage_setup env g (h ++ a1) FRAGMENT_SHADER fsrc Hq)
    as (fs & a2 & Hf & Ha2).
  rewrite (createProgram_quiet _ _ _ _ _ _ _ _ _ Hq Hv Hf).
  unfold link_rejected, link_checked, linked.
  destruct (truthy _); rewrite <- ?app_assoc; do 2 eexists;
    (split; [reflexivity |]);
    rewrite !filter_app, Ha1, Ha2; reflexivity.
Qed.

Lemma createProgram_compiles_both_stages_witness :
  let env := page reject_fragment in
  quiet env /\
  exists r added,
    createProgram (VObj 1) vertShader fragShader env [] =
      (Returned r, [] ++ added) /\
    filter is_stage_setup added =
      [GL (CreateShader VERTEX_SHADER);
       GL (ShaderSource (VObj 2) vertShader);
       GL (CreateShader FRAGMENT_SHADER);
       GL (ShaderSource (VObj 6) fragShader)].
Proof.
  intros env.
  split; [intros h c; eexists; reflexivity |].
  apply (createProgram_compiles_both_stages env 1%nat [] vertShader
           fragShader).
  intros h c; eexists; reflexivity.
Defined.

(** ** Where exceptions come from *)

(** One statement on a context object: either the implementation answers,
    or the exception is its own and the call is the last event. *)
Ltac throw_step env :=
  match goal with
  | |- context [respond env ?t ?c] =>
      let R := fresh "R" in
      destruct (respond env t c) as [? | ?] eqn:R;
      [| intros [= <- <-]; do 2 eexists; split; [reflexivity | exact R]]
  | |- context [if ?b then _ else _] => destruct b
  end.

Lemma createShader_thrown_by_last_call env g h type source e h' :
  createShader (VObj g) type source env h = (Thrown e, h') ->
  exists pre c, h' = pre ++ [GL c] /\ respond env pre c = Thrown e.
Proof.
  unfold createShader, bind, gl_call, console_error, ret; cbn.
  repeat throw_step env; discriminate.
Qed.

Lemma createProgram_thrown_by_last_call env g h vsrc fsrc e h' :
  createProgram (VObj g) vsrc fsrc env h = (Thrown e, h') ->
  exists pre c, h' = pre ++ [GL c] /\ respond env pre c = Thrown e.
Proof.
  unfold createProgram.
  rewrite (bind_returned _ _ _ _ _ _ (gl_const_object g VERTEX_SHADER env h)).
  unfold bind at 1.
  destruct (createShader (VObj g) VERTEX_SHADER vsrc env h)
    as [[vs | e1] h1] eqn:Rv.
  2: { intros [= <- <-].
       exact (createShader_thrown_by_last_call _ _ _ _ _ _ _ Rv). }
  rewrite (bind_returned _ _ _ _ _ _
             (gl_const_object g FRAGMENT_SHADER env h1)).
  unfold bind at 1.
  destruct (createShader (VObj g) FRAGMENT_SHADER fsrc env h1)
    as [[fs | e2] h2] eqn:Rf.
  2: { intros [= <- <-].
       exact (createShader_thrown_by_last_call _ _ _ _ _ _ _ Rf). }
  unfold bind, gl_call, console_error, ret; cbn.
  repeat throw_step env; discriminate.
Qed.

(** X6. [createShader] has no [throw] of its own: on a context object, when
    it ends in an exception, that exception was raised by the implementation
    in the call that is the last event of the trace. *)
Theorem createShader_exception_origin env g h type source e h' :
  createShader (VObj g) type source env h = (Thrown e, h') ->
  exists pre c, h' = pre ++ [GL c] /\ respond env pre c = Thrown e.
Proof. apply createShader_thrown_by_last_call. Qed.

Lemma createShader_exception_origin_witness :
  let env := page_throwing is_compile_call in
  createShader (VObj 1) VERTEX_SHADER vertShader env [] =
    (Thrown TypeError,
     [GL (CreateShader VERTEX_SHADER);
      GL (ShaderSource (VObj 2) vertShader);
      GL (CompileShader (VObj 2))]) /\
  exists pre c,
    [GL (CreateShader VERTEX_SHADER);
     GL (ShaderSource (VObj 2) vertShader);
     GL (CompileShader (VObj 2))] = pre ++ [GL c] /\
    respond env pre c = Thrown TypeError.
Proof.
  intros env. split; [reflexivity |].
  apply (createShader_exception_origin env 1%nat [] VERTEX_SHADER vertShader).
  reflexivity.
Defined.

(** X7. [createProgram] has no [throw] of its own either: on a context
    object, when it ends in an exception, that exception was raised by the
    implementation in the call that is the last event of the trace. *)
Theorem createProgram_exception_origin env g h vsrc fsrc e h' :
  createProgram (VObj g) vsrc fsrc env h = (Thrown e, h') ->
  exists pre c, h' = pre ++ [GL c] /\ respond env pre c = Thrown e.
Proof. apply createProgram_thrown_by_last_call. Qed.

Lemma createProgram_exception_origin_witness :
  exists h' pre c,
    createProgram (VObj 1) vertShader fragShader page_strict [] =
      (Thrown TypeError, h') /\
    h' = pre ++ [GL c] /\
    respond page_strict pre c = Thrown TypeError.
Proof.
  destruct (createProgram_exception_origin page_strict 1%nat []
              vertShader fragShader TypeError _ eq_refl)
    as (pre & c & Hh & Hr).
  do 3 eexists. split; [reflexivity |].
  split; [exact Hh | exact Hr].
Defined.

(** X8. When [createProgram] ends in an exception, so does the script, on
    the same trace: the failure message of the script is not logged, no
    buffer is made and nothing is drawn. *)
Theorem main_stops_when_createProgram_throws env c g e t :
  getElementById env "leCanvas" = VObj c ->
  getContext env (VObj c) "webgl" = VObj g ->
  createProgram (VObj g) vertShader fragShader env [] = (Thrown e, t) ->
  main env [] = (Thrown e, t).
Proof.
  intros Hc Hg Hp. unfold main.
  rewrite (bind_returned _ _ env [] (VObj c) [])
    by (unfold document_getElementById; rewrite Hc; reflexivity).
  cbn [truthy negb].
  rewrite (bind_returned _ _ env [] tt []) by apply when_false.
  rewrite (bind_returned _ _ env [] (VObj g) [])
    by (unfold canvas_getContext, bind; cbn; rewrite Hg; reflexivity).
  cbn [truthy negb].
  rewrite (bind_returned _ _ env [] tt []) by apply when_false.
  apply bind_thrown. exact Hp.
Qed.

Lemma main_stops_when_createProgram_throws_witness :
  exists t,
    createProgram (VObj 1) vertShader fragShader page_strict [] =
      (Thrown TypeError, t) /\
    main page_strict [] = (Thrown TypeError, t) /\
    existsb is_draw t = false.
Proof.
  eexists. split; [reflexivity |]. split.
  - apply (main_stops_when_createProgram_throws page_strict 0%nat 1%nat).
    + reflexivity.
    + reflexivity.
    + reflexivity.
  - reflexivity.
Defined.

(** ** What no run ever does *)

Lemma createShader_keeps_programs gl type source :
  preserves no_delete_program (createShader gl type source).
Proof. unfold createShader. preserve; reflexivity. Qed.

Lemma createProgram_keeps_programs gl vsrc fsrc :
  preserves no_delete_program (createProgram gl vsrc fsrc).
Proof.
  unfold createProgram.
  preserve; try reflexivity; apply createShader_keeps_programs.
Qed.

(** X9. Whatever the page and the implementation do, returning or
    throwing, no run of the script issues [deleteProgram]: a program object,
    linked or not, is never released by the script. *)
Theorem main_never_deletes_program env :
  Forall no_delete_program (snd (main env [])).
Proof.
  assert (H : preserves no_delete_program main).
  { unfold main, canvas_getContext, gl_canvas_width, gl_canvas_height.
    preserve; try reflexivity; apply createProgram_keeps_programs. }
  apply H. constructor.
Qed.

(** X10. With the canvas and a context in hand, the script has no way of
    its own to fail: when a run ends in an exception, that exception was
    raised by the implementation in the call that is the last event of the
    trace. *)
Theorem main_exception_origin env c g e t :
  getElementById env "leCanvas" = VObj c ->
  getContext env (VObj c) "webgl" = VObj g ->
  main env [] = (Thrown e, t) ->
  exists pre call, t = pre ++ [GL call] /\ respond env pre call = Thrown e.
Proof.
  intros Hc Hg. unfold main.
  rewrite (bind_returned _ _ env [] (VObj c) [])
    by (unfold document_getElementById; rewrite Hc; reflexivity).
  cbn [truthy negb].
  rewrite (bind_returned _ _ env [] tt []) by apply when_false.
  rewrite (bind_returned _ _ env [] (VObj g) [])
    by (unfold canvas_getContext, bind; cbn; rewrite Hg; reflexivity).
  cbn [truthy negb].
  rewrite (bind_returned _ _ env [] tt []) by apply when_false.
  unfold bind at 1.
  destruct (createProgram (VObj g) vertShader fragShader env [])
    as [[program | e1] t0] eqn:Rp.
  2: { intros [= <- <-].
       exact (createProgram_thrown_by_last_call _ _ _ _ _ _ _ Rp). }
  unfold bind at 1.
  assert (Hw : exists t1,
             when (negb (truthy program))
               (console_error (VStr "Failed to create program :(")) env t0 =
             (Returned tt, t1))
    by (destruct (truthy program); eexists; reflexivity).
  destruct Hw as [t1 ->]. clear Rp.
  unfold bind, gl_call, gl_canvas_width, gl_canvas_height, ret; cbn.
  repeat throw_step env; discriminate.
Qed.

Lemma main_exception_origin_witness :
  exists t pre call,
    main page_strict [] = (Thrown TypeError, t) /\
    t = pre ++ [GL call] /\
    respond page_strict pre call = Thrown TypeError.
Proof.
  destruct (main_exception_origin page_strict 0%nat 1%nat TypeError _
              eq_refl eq_refl eq_refl)
    as (pre & call & Ht & Hr).
  do 3 eexists. split; [reflexivity |].
  split; [exact Ht | exact Hr].
Defined.

(** ** The draw call in every run *)

Lemma triple_ret {A} env (P : trace -> Prop) (a : A) Q E :
  (forall h, P h -> Q a h) -> triple env P (ret a) Q E.
Proof. intros H h Hh. cbn. auto. Qed.

Lemma triple_bind {A B} env P (m : M A) (k : A -> M B) Q R E :
  triple env P m Q E -> (forall a, triple env (Q a) (k a) R E) ->
  triple env P (bind m k) R E.
Proof.
  intros Hm Hk h Hh. unfold bind.
  specialize (Hm h Hh).
  destruct (m env h) as [[a | e] h'].
  - exact (Hk a h' Hm).
  - exact Hm.
Qed.

Lemma triple_gl_call env P gl c
  (Q : value -> trace -> Prop) (E : exn -> trace -> Prop) :
  (forall h, P h -> E TypeError h) ->
  (forall h v, P h -> respond env h c = Returned v -> Q v (h ++ [GL c])) ->
  (forall h e, P h -> respond env h c = Thrown e -> E e (h ++ [GL c])) ->
  triple env P (gl_call gl c) Q E.
Proof.
  intros Hderef Hret Hthrow h Hh.
  unfold gl_call, bind, deref.
  destruct (is_object gl); cbn; [| auto].
  destruct (respond env h c) eqn:R; auto.
Qed.

(** A computation that keeps an event property keeps it as a triple. *)
Lemma preserves_triple {A} env (P : event -> Prop) (m : M A)
  (E : exn -> trace -> Prop) :
  preserves P m ->
  (forall e h, Forall P h -> E e h) ->
  triple env (Forall P) m (fun _ => Forall P) E.
Proof.
  intros Hm HE h Hh. specialize (Hm env h Hh).
  destruct (m env h) as [[a | e] h']; cbn [snd] in Hm; auto.
Qed.

Lemma createShader_draws_nothing gl type source :
  preserves no_draw (createShader gl type source).
Proof. unfold createShader. preserve; reflexivity. Qed.

Lemma createProgram_draws_nothing gl vsrc fsrc :
  preserves no_draw (createProgram gl vsrc fsrc).
Proof.
  unfold createProgram.
  preserve; try reflexivity; apply createShader_draws_nothing.
Qed.

(** X11. Whatever the page and the implementation do, a run of the script
    issues at most one draw call, it is [drawArrays(TRIANGLES, 0, 3)], and
    nothing follows it.  A run that returns has issued it, and the
    implementation answered it; a run cut short by an exception has issued
    it only if the draw call itself threw: the exception of the run is then
    the one the implementation raised on that call. *)
Theorem draw_is_last_and_at_most_once env :
  exists before,
    Forall no_draw before /\
    match main env [] with
    | (Returned _, t) =>
        t = before ++ [GL (DrawArrays TRIANGLES 0 3)] /\
        exists v, respond env before (DrawArrays TRIANGLES 0 3) = Returned v
    | (Thrown e, t) =>
        t = before \/
        (t = before ++ [GL (DrawArrays TRIANGLES 0 3)] /\
         respond env before (DrawArrays TRIANGLES 0 3) = Thrown e)
    end.
Proof.
  assert (H : triple env (Forall no_draw) main
                (fun _ t => exists before, Forall no_draw before /\
                   t = before ++ [GL (DrawArrays TRIANGLES 0 3)] /\
                   exists v,
                     respond env before (DrawArrays TRIANGLES 0 3)
                       = Returned v)
                (fun e t => exists before, Forall no_draw before /\
                   (t = before \/
                    (t = before ++ [GL (DrawArrays TRIANGLES 0 3)] /\
                     respond env before (DrawArrays TRIANGLES 0 3)
                       = Thrown e)))).
  { unfold main, canvas_getContext, gl_canvas_width, gl_canvas_height.
    repeat
      (eapply triple_bind;
       [ apply preserves_triple;
         [ solve [ apply createProgram_draws_nothing
                 | preserve; reflexivity ]
         | intros e h Hh; exists h; split; [exact Hh | left; reflexivity] ]
       | intros ? ]).
    eapply triple_bind.
    - apply triple_gl_call
        with (Q := fun _ t => exists before, Forall no_draw before /\
                     t = before ++ [GL (DrawArrays TRIANGLES 0 3)] /\
                     exists v,
                       respond env before (DrawArrays TRIANGLES 0 3)
                         = Returned v).
      + intros h Hh; exists h; split; [exact Hh | left; reflexivity].
      + intros h v Hh R; exists h; split; [exact Hh |].
        split; [reflexivity | exists v; exact R].
      + intros h e Hh R; exists h; split; [exact Hh |].
        right; split; [reflexivity | exact R].
    - intros ?. apply triple_ret. cbn. auto. }
  specialize (H [] (Forall_nil _)).
  destruct (main env []) as [[[] | e] t].
  - destruct H as (before & Hb & Ht & Hv). exists before. auto.
  - destruct H as (before & Hb & Ht). exists before. auto.
Qed.

(** ** The run in which every check passes *)

(** X12. In a run with the canvas, a context and an implementation that
    answers, the console stays empty exactly when the vertex stage compiles,
    the fragment stage compiles, the program links and the program handle
    is not [null]: any failure leaves at least one line, and success leaves
    none. *)
Theorem console_silent_iff_success env c g :
  getElementById env "leCanvas" = VObj c ->
  getContext env (VObj c) "webgl" = VObj g ->
  quiet env ->
  let vs := new_shader env [] VERTEX_SHADER in
  let h1 := compile_checked env [] VERTEX_SHADER vertShader in
  let fs := new_shader env h1 FRAGMENT_SHADER in
  let h2 := compile_checked env h1 FRAGMENT_SHADER fragShader in
  existsb is_console (snd (main env [])) = false <->
  truthy (compile_status env [] VERTEX_SHADER vertShader) = true /\
  truthy (compile_status env h1 FRAGMENT_SHADER fragShader) = true /\
  truthy (link_status env h2 vs fs) = true /\
  truthy (new_program env h2) = true.
Proof.
  intros Hc Hg Hq. cbv zeta.
  pose proof (createShader_quiet env g [] VERTEX_SHADER vertShader Hq) as Rv.
  destruct (truthy (compile_status env [] VERTEX_SHADER vertShader)) eqn:Sv;
    match type of Rv with
    | _ = (_, ?h1) =>
        pose proof (createShader_quiet env g h1 FRAGMENT_SHADER fragShader Hq)
          as Rf
    end;
    match type of Rf with
    | _ = if truthy ?s then _ else _ => destruct (truthy s) eqn:Sf
    end;
    pose proof (createProgram_quiet _ _ _ _ _ _ _ _ _ Hq Rv Rf) as Rp;
    match type of Rp with
    | _ = if truthy ?s then _ else _ => destruct (truthy s) eqn:Sl
    end;
    pose proof (main_quiet env c g _ _ Hc Hg Hq Rp) as Rm;
    cbv zeta in Rm; cbn [truthy] in Rm;
    try match type of Rm with
        | context [truthy ?p] => destruct (truthy p) eqn:Sp
        end;
    rewrite Rm; cbn [snd];
    unfold attribute_ready, attribute_setup, link_rejected, link_checked,
      linked, compile_rejected, compile_checked, compiled;
    rewrite !existsb_app; cbn [existsb is_console orb app];
    rewrite ?orb_true_r, ?orb_false_r;
    (split; [intros H; try discriminate H; auto
            | intros (H1 & H2 & H3 & H4); try discriminate; reflexivity]).
Qed.

Lemma console_silent_iff_success_witness :
  let env := page accept_all in
  let vs := new_shader env [] VERTEX_SHADER in
  let h1 := compile_checked env [] VERTEX_SHADER vertShader in
  let fs := new_shader env h1 FRAGMENT_SHADER in
  let h2 := compile_checked env h1 FRAGMENT_SHADER fragShader in
  quiet env /\
  (existsb is_console (snd (main env [])) = false <->
   truthy (compile_status env [] VERTEX_SHADER vertShader) = true /\
   truthy (compile_status env h1 FRAGMENT_SHADER fragShader) = true /\
   truthy (link_status env h2 vs fs) = true /\
   truthy (new_program env h2) = true).
Proof.
  intros env vs h1 fs h2.
  split; [intros h c; eexists; reflexivity |].
  apply (console_silent_iff_success env 0%nat 1%nat).
  - reflexivity.
  - reflexivity.
  - intros h c; eexists; reflexivity.
Defined.

(** X13. In a run with the canvas, a context and an implementation that
    answers, when both stages compile, the program links and its handle is
    not [null], the script returns after exactly 32 WebGL calls and no
    console line: the thirteen calls of [createProgram], seven per
    attribute with the linked program as the one the names are looked up
    in, and the five of the draw submission with that same program made
    current. *)
Theorem main_success_trace env c g :
  getElementById env "leCanvas" = VObj c ->
  getContext env (VObj c) "webgl" = VObj g ->
  quiet env ->
  let vs := new_shader env [] VERTEX_SHADER in
  let h1 := compile_checked env [] VERTEX_SHADER vertShader in
  let fs := new_shader env h1 FRAGMENT_SHADER in
  let h2 := compile_checked env h1 FRAGMENT_SHADER fragShader in
  let program := new_program env h2 in
  let t0 := link_checked env h2 vs fs in
  let t1 := attribute_ready env t0 program "a_points" 2 points_arr in
  truthy (compile_status env [] VERTEX_SHADER vertShader) = true ->
  truthy (compile_status env h1 FRAGMENT_SHADER fragShader) = true ->
  truthy (link_status env h2 vs fs) = true ->
  truthy program = true ->
  main env [] =
  (Returned tt,
   t0 ++
   attribute_setup env t0 program "a_points" 2 points_arr ++
   attribute_setup env t1 program "a_colors" 4 colors_arr ++
   [GL (Viewport 0 0 (canvas_width env) (canvas_height env));
    GL (ClearColor 0 0 0 1);
    GL (Clear COLOR_BUFFER_BIT);
    GL (UseProgram program);
    GL (DrawArrays TRIANGLES 0 3)]) /\
  List.length t0 = 13%nat /\
  List.length (snd (main env [])) = 32%nat /\
  forallb is_gl (snd (main env [])) = true.
Proof.
  intros Hc Hg Hq vs h1 fs h2 program t0 t1 Sv Sf Sl Sp.
  assert (Rv : createShader (VObj g) VERTEX_SHADER vertShader env [] =
               (Returned vs, h1))
    by (rewrite createShader_quiet, Sv by assumption; reflexivity).
  assert (Rf : createShader (VObj g) FRAGMENT_SHADER fragShader env h1 =
               (Returned fs, h2))
    by (rewrite createShader_quiet, Sf by assumption; reflexivity).
  assert (Rp : createProgram (VObj g) vertShader fragShader env [] =
               (Returned program, t0))
    by (rewrite (createProgram_quiet _ _ _ _ _ _ _ _ _ Hq Rv Rf), Sl;
        reflexivity).
  pose proof (main_quiet env c g program t0 Hc Hg Hq Rp) as Rm.
  cbv zeta in Rm. rewrite Sp in Rm. fold t1 in Rm.
  assert (Hmain : main env [] =
    (Returned tt,
     t0 ++
     attribute_setup env t0 program "a_points" 2 points_arr ++
     attribute_setup env t1 program "a_colors" 4 colors_arr ++
     [GL (Viewport 0 0 (canvas_width env) (canvas_height env));
      GL (ClearColor 0 0 0 1);
      GL (Clear COLOR_BUFFER_BIT);
      GL (UseProgram program);
      GL (DrawArrays TRIANGLES 0 3)])).
  { rewrite Rm. unfold attribute_ready at 1. unfold t1 at 1.
    unfold attribute_ready at 1. rewrite <- !app_assoc. reflexivity. }
  assert (Ht0 : List.length t0 = 13%nat /\ forallb is_gl t0 = true)
    by (split; reflexivity).
  destruct Ht0 as [Hlen Hgl].
  split; [exact Hmain |]. split; [exact Hlen |].
  rewrite Hmain. cbn [snd]. split.
  - rewrite !length_app, Hlen. reflexivity.
  - rewrite !forallb_app, Hgl. reflexivity.
Qed.

Lemma main_success_trace_witness :
  let env := page accept_all in
  quiet env /\
  main env [] =
  (Returned tt,
   [GL (CreateShader VERTEX_SHADER);
    GL (ShaderSource (VObj 2) vertShader);
    GL (CompileShader (VObj 2));
    GL (GetShaderParameter (VObj 2) COMPILE_STATUS);
    GL (CreateShader FRAGMENT_SHADER);
    GL (ShaderSource (VObj 6) fragShader);
    GL (CompileShader (VObj 6));
    GL (GetShaderParameter (VObj 6) COMPILE_STATUS);
    GL CreateProgram;
    GL (AttachShader (VObj 10) (VObj 2));
    GL (AttachShader (VObj 10) (VObj 6));
    GL (LinkProgram (VObj 10));
    GL (GetProgramParameter (VObj 10) LINK_STATUS);
    GL CreateBuffer;
    GL (BindBuffer ARRAY_BUFFER (VObj 15));
    GL (BufferData ARRAY_BUFFER points_arr STATIC_DRAW);
    GL (GetAttribLocation (VObj 10) "a_points");
    GL (BindBuffer ARRAY_BUFFER (VObj 15));
    GL (VertexAttribPointer (VNum 0) 2 FLOAT false 0 0);
    GL (EnableVertexAttribArray (VNum 0));
    GL CreateBuffer;
    GL (BindBuffer ARRAY_BUFFER (VObj 22));
    GL (BufferData ARRAY_BUFFER colors_arr STATIC_DRAW);
    GL (GetAttribLocation (VObj 10) "a_colors");
    GL (BindBuffer ARRAY_BUFFER (VObj 22));
    GL (VertexAttribPointer (VNum 1) 4 FLOAT false 0 0);
    GL (EnableVertexAttribArray (VNum 1));
    GL (Viewport 0 0 300 150);
    GL (ClearColor 0 0 0 1);
    GL (Clear COLOR_BUFFER_BIT);
    GL (UseProgram (VObj 10));
    GL (DrawArrays TRIANGLES 0 3)]).
Proof.
  intros env.
  split; [intros h c; eexists; reflexivity |].
  apply (main_success_trace env 0%nat 1%nat).
  - reflexivity.
  - reflexivity.
  - intros h c; eexists; reflexivity.
  - reflexivity.
  - reflexivity.
  - reflexivity.
  - reflexivity.
Defined.

(** ** The rejected fragment stage, from compilation to the end of the run *)

Lemma answered_ans env h c :
  answered env h c -> respond env h c = Returned (ans env h c).
Proof. intros [v R]. unfold ans. rewrite R. reflexivity. Qed.

(** A stage the implementation rejects comes back [null], on the trace of
    the failure path. *)
Lemma createShader_rejected env g h type source :
  rejected env h type source ->
  createShader (VObj g) type source env h =
  (Returned VNull, compile_rejected env h type source).
Proof.
  intros (A1 & A2 & A3 & A4 & Hst & A5 & A6).
  unfold createShader.
  rewrite (bind_returned _ _ _ _ _ _
             (gl_call_answered _ g _ _ _ (answered_ans _ _ _ A1))).
  fold (new_shader env h type).
  rewrite (bind_returned _ _ _ _ _ _
             (gl_call_answered _ g _ _ _ (answered_ans _ _ _ A2))).
  rewrite <- app_assoc. cbn [app].
  rewrite (bind_returned _ _ _ _ _ _
             (gl_call_answered _ g _ _ _ (answered_ans _ _ _ A3))).
  rewrite <- app_assoc. cbn [app].
  fold (compiled env h type source).
  rewrite (bind_returned _ _ _ _ _ _
             (gl_call_answered _ g _ _ _ (answered_ans _ _ _ A4))).
  fold (compile_status env h type source).
  fold (compile_checked env h type source).
  rewrite Hst. cbn [negb].
  rewrite (bind_returned _ _ _ _ _ _
             (gl_call_answered _ g _ _ _ (answered_ans _ _ _ A5))).
  fold (shader_info_log env h type source).
  rewrite (bind_returned _ _ _ _ _ _ (console_error_run _ _ _)).
  rewrite <- app_assoc. cbn [app].
  rewrite (bind_returned _ _ _ _ _ _
             (gl_call_answered _ g _ _ _ (answered_ans _ _ _ A6))).
  rewrite <- app_assoc. cbn [app].
  reflexivity.
Qed.

(** An exception that leaves [createProgram] leaves the script, on the same
    trace. *)
Lemma main_ends_with_createProgram env c g e t :
  getElementById env "leCanvas" = VObj c ->
  getContext env (VObj c) "webgl" = VObj g ->
  createProgram (VObj g) vertShader fragShader env [] = (Thrown e, t) ->
  main env [] = (Thrown e, t).
Proof.
  intros Hc Hg Hp. unfold main.
  rewrite (bind_returned _ _ env [] (VObj c) [])
    by (unfold document_getElementById; rewrite Hc; reflexivity).
  cbn [truthy negb].
  rewrite (bind_returned _ _ env [] tt []) by apply when_false.
  rewrite (bind_returned _ _ env [] (VObj g) [])
    by (unfold canvas_getContext, bind; cbn; rewrite Hg; reflexivity).
  cbn [truthy negb].
  rewrite (bind_returned _ _ env [] tt []) by apply when_false.
  apply bind_thrown. exact Hp.
Qed.

Lemma no_draw_existsb l : Forall no_draw l -> existsb is_draw l = false.
Proof.
  induction 1 as [| e l He _ IH]; [reflexivity |].
  cbn [existsb]. rewrite He, IH. reflexivity.
Qed.

(** C1, amended.  Take a run with the canvas and a context in which the
    vertex stage has come back and the implementation rejects the fragment
    stage.  The fragment stage then comes back [null], its info log on the
    console, and [createProgram] attaches that [null].  What follows is up
    to the implementation.

    Where it throws on that attachment (a binding that refuses [null]),
    [createProgram] does not return: it ends in that exception right after
    the call, the script ends with it on the same trace, and no draw call
    is issued.

    Where it answers every call and reports the link as unsuccessful,
    [createProgram] returns [null], having logged the program's info log;
    the script logs [Failed to create program :(] and, having no guard,
    goes on with the null program: it makes and fills the two buffers,
    looks both attributes up in [null], describes and enables them, and
    ends with the draw submission, [useProgram(null)] and
    [drawArrays(TRIANGLES, 0, 3)] included. *)
Theorem rejected_fragment_still_draws env c g vs h1 :
  getElementById env "leCanvas" = VObj c ->
  getContext env (VObj c) "webgl" = VObj g ->
  createShader (VObj g) VERTEX_SHADER vertShader env [] = (Returned vs, h1) ->
  rejected env h1 FRAGMENT_SHADER fragShader ->
  let h2 := compile_rejected env h1 FRAGMENT_SHADER fragShader in
  let p := new_program env h2 in
  createShader (VObj g) FRAGMENT_SHADER fragShader env h1 =
    (Returned VNull, h2) /\
  In (ConsoleError (shader_info_log env h1 FRAGMENT_SHADER fragShader)) h2 /\
  (forall e,
     answered env h2 CreateProgram ->
     answered env (h2 ++ [GL CreateProgram]) (AttachShader p vs) ->
     respond env (h2 ++ [GL CreateProgram; GL (AttachShader p vs)])
       (AttachShader p VNull) = Thrown e ->
     let t := h2 ++ [GL CreateProgram;
                     GL (AttachShader p vs);
                     GL (AttachShader p VNull)] in
     createProgram (VObj g) vertShader fragShader env [] = (Thrown e, t) /\
     main env [] = (Thrown e, t) /\
     existsb is_draw t = false) /\
  (quiet env ->
   truthy (link_status env h2 vs VNull) = false ->
   let t0 := h2 ++ [GL CreateProgram;
                    GL (AttachShader p vs);
                    GL (AttachShader p VNull);
                    GL (LinkProgram p);
                    GL (GetProgramParameter p LINK_STATUS);
                    GL (GetProgramInfoLog p);
                    ConsoleError (program_info_log env h2 vs VNull)] in
   let t1 := t0 ++ [ConsoleError (VStr "Failed to create program :(")] in
   let t2 := attribute_ready env t1 VNull "a_points" 2 points_arr in
   let points_slot := attrib_location env t1 VNull "a_points" points_arr in
   let colors_slot := attrib_location env t2 VNull "a_colors" colors_arr in
   createProgram (VObj g) vertShader fragShader env [] =
     (Returned VNull, t0) /\
   logs_text (snd (main env [])) = true /\
   main env [] =
   (Returned tt,
    t1 ++
    [GL CreateBuffer;
     GL (BindBuffer ARRAY_BUFFER (new_buffer env t1));
     GL (BufferData ARRAY_BUFFER points_arr STATIC_DRAW);
     GL (GetAttribLocation VNull "a_points");
     GL (BindBuffer ARRAY_BUFFER (new_buffer env t1));
     GL (VertexAttribPointer points_slot 2 FLOAT false 0 0);
     GL (EnableVertexAttribArray points_slot)] ++
    [GL CreateBuffer;
     GL (BindBuffer ARRAY_BUFFER (new_buffer env t2));
     GL (BufferData ARRAY_BUFFER colors_arr STATIC_DRAW);
     GL (GetAttribLocation VNull "a_colors");
     GL (BindBuffer ARRAY_BUFFER (new_buffer env t2));
     GL (VertexAttribPointer colors_slot 4 FLOAT false 0 0);
     GL (EnableVertexAttribArray colors_slot)] ++
    [GL (Viewport 0 0 (canvas_width env) (canvas_height env));
     GL (ClearColor 0 0 0 1);
     GL (Clear COLOR_BUFFER_BIT);
     GL (UseProgram VNull);
     GL (DrawArrays TRIANGLES 0 3)])).
Proof.
  intros Hc Hg Hv Hrej h2 p.
  pose proof (createShader_rejected env g h1 FRAGMENT_SHADER fragShader Hrej)
    as Hf.
  fold h2 in Hf.
  split; [exact Hf |]. split.
  { unfold h2, compile_rejected. rewrite in_app_iff. cbn [In]. tauto. }
  split.
  - intros e A0 A1 R2 t.
    assert (Hp : createProgram (VObj g) vertShader fragShader env [] =
                 (Thrown e, t)).
    { unfold createProgram.
      rewrite (bind_returned _ _ _ _ _ _
                 (gl_const_object g VERTEX_SHADER env [])).
      rewrite (bind_returned _ _ _ _ _ _ Hv).
      rewrite (bind_returned _ _ _ _ _ _
                 (gl_const_object g FRAGMENT_SHADER env h1)).
      rewrite (bind_returned _ _ _ _ _ _ Hf).
      rewrite (bind_returned _ _ _ _ _ _
                 (gl_call_answered _ g _ _ _ (answered_ans _ _ _ A0))).
      fold (new_program env h2). fold p.
      rewrite (bind_returned _ _ _ _ _ _
                 (gl_call_answered _ g _ _ _ (answered_ans _ _ _ A1))).
      rewrite <- app_assoc. cbn [app].
      rewrite (bind_thrown _ _ _ _ _ _ (gl_call_thrown _ g _ _ _ R2)).
      rewrite <- app_assoc. reflexivity. }
    split; [exact Hp |]. split.
    + exact (main_ends_with_createProgram env c g e t Hc Hg Hp).
    + apply no_draw_existsb.
      pose proof (createShader_draws_nothing (VObj g) VERTEX_SHADER
                    vertShader env [] (Forall_nil _)) as H1.
      rewrite Hv in H1. cbn [snd] in H1.
      unfold t, h2, compile_rejected, compile_checked, compiled.
      repeat (apply Forall_app; split); try exact H1;
        repeat constructor.
  - intros Hq Hlink t0 t1 t2 points_slot colors_slot.
    assert (Hp : createProgram (VObj g) vertShader fragShader env [] =
                 (Returned VNull, t0)).
    { rewrite (createProgram_quiet _ _ _ _ _ _ _ _ _ Hq Hv Hf), Hlink.
      unfold link_rejected, link_checked, linked, t0.
      fold p. rewrite <- !app_assoc. reflexivity. }
    pose proof (main_quiet env c g VNull t0 Hc Hg Hq Hp) as Hmain.
    cbn [truthy] in Hmain. cbv zeta in Hmain. fold t1 in Hmain.
    fold t2 in Hmain.
    assert (Hmain' : main env [] =
      (Returned tt,
       t1 ++
       attribute_setup env t1 VNull "a_points" 2 points_arr ++
       attribute_setup env t2 VNull "a_colors" 4 colors_arr ++
       [GL (Viewport 0 0 (canvas_width env) (canvas_height env));
        GL (ClearColor 0 0 0 1);
        GL (Clear COLOR_BUFFER_BIT);
        GL (UseProgram VNull);
        GL (DrawArrays TRIANGLES 0 3)])).
    { rewrite Hmain. unfold attribute_ready at 1. unfold t2 at 1.
      unfold attribute_ready at 1. rewrite <- !app_assoc. reflexivity. }
    split; [exact Hp |]. split.
    + rewrite Hmain'. cbn [snd]. unfold t1.
      rewrite !logs_text_app. cbn. rewrite !orb_true_r. reflexivity.
    + exact Hmain'.
Qed.

Lemma rejected_fragment_still_draws_witness :
  (exists t,
     rejected page_strict
       (snd (createShader (VObj 1) VERTEX_SHADER vertShader page_strict []))
       FRAGMENT_SHADER fragShader /\
     createProgram (VObj 1) vertShader fragShader page_strict [] =
       (Thrown TypeError, t) /\
     main page_strict [] = (Thrown TypeError, t) /\
     existsb is_draw t = false) /\
  (exists t0 t,
     quiet (page reject_fragment) /\
     createProgram (VObj 1) vertShader fragShader (page reject_fragment) [] =
       (Returned VNull, t0) /\
     logs_text (snd (main (page reject_fragment) [])) = true /\
     main (page reject_fragment) [] = (Returned tt, t) /\
     existsb is_draw t = true).
Proof.
  split.
  - assert (Hrej : rejected page_strict
               (snd (createShader (VObj 1) VERTEX_SHADER vertShader
                       page_strict []))
               FRAGMENT_SHADER fragShader).
    { unfold rejected, answered.
      repeat split; try (eexists; reflexivity). }
    destruct (rejected_fragment_still_draws page_strict 0%nat 1%nat (VObj 2)
                _ eq_refl eq_refl eq_refl Hrej)
      as (_ & _ & Hrefuse & _).
    destruct (Hrefuse TypeError) as (Hp & Hm & Hd).
    + eexists; reflexivity.
    + eexists; reflexivity.
    + reflexivity.
    + eexists. split; [exact Hrej |].
      split; [exact Hp |]. split; [exact Hm | exact Hd].
  - assert (Hq : quiet (page reject_fragment))
      by (intros h c; eexists; reflexivity).
    assert (Hrej : rejected (page reject_fragment)
               (snd (createShader (VObj 1) VERTEX_SHADER vertShader
                       (page reject_fragment) []))
               FRAGMENT_SHADER fragShader).
    { unfold rejected, answered.
      repeat split; try (eexists; reflexivity). }
    destruct (rejected_fragment_still_draws (page reject_fragment)
                0%nat 1%nat (VObj 2) _ eq_refl eq_refl eq_refl Hrej)
      as (_ & _ & _ & Hanswer).
    destruct (Hanswer Hq eq_refl) as (Hp & Hlog & Hm).
    do 2 eexists. split; [exact Hq |].
    split; [exact Hp |]. split; [exact Hlog |].
    split; [exact Hm |]. reflexivity.
Defined.
